(** * ladybug-display: display attributes attached to geometry

    A shallow embedding of [ladybug_display/geometry2d/_base.py] and
    [ladybug_display/_extend_ladybug.py], with the parts of the package the
    two files rely on, and the properties the specification states about them.

    Python objects are mutable: a setter or a transform is a computation in a
    state-and-exception monad over the object's slots, so that what is left in
    the object after a failed call is part of the model.  Python's [float] is the
    binary64 type ([PrimFloat.float]) and its [int] is [Z].  Dictionaries are
    finite maps with string keys ([gmap string _]), whose equality ignores
    insertion order as Python's [==] on [dict] does. *)

From Stdlib Require Import ZArith Floats Ascii String.
From stdpp Require Import base option list strings gmap.

#[local] Set Warnings "-register-all".

(** ** Strings *)

(** [str.lower] and [bytes.lower] on ASCII text: the 26 capital letters move
    to their small forms and every other character stays.  For a [bytes], and
    for a [str] of ASCII characters ([isascii] below), this is what Python
    does; a [str] character beyond that range is left as it is here, where
    Python lowers it when it has a small form. *)
Definition ascii_lower (c : ascii) : ascii :=
  let n := nat_of_ascii c in
  if (65 <=? n)%nat && (n <=? 90)%nat then ascii_of_nat (n + 32) else c.

Fixpoint lower (s : string) : string :=
  match s with
  | EmptyString => EmptyString
  | String c rest => String (ascii_lower c) (lower rest)
  end.

(** [str.isascii]: every character of the text is in the ASCII range, where
    [lower] above is [str.lower]. *)
Definition isascii (s : string) : bool :=
  forallb (fun c => (nat_of_ascii c <? 128)%nat) (list_ascii_of_string s).

Definition newline : string := String (ascii_of_nat 10) EmptyString.

(** ** Values *)

(** [ladybug.color.Color]: four integer channels. *)
Record Color : Type := mkColor { r : Z; g : Z; b : Z; a : Z }.

(** Modelled from the spec: the constructor of [ladybug.color.Color], which is
    not part of these sources.  [Color(r, g, b)] leaves the alpha channel at its
    default, 255 (opaque). *)
Definition Color_new (r g b : Z) : Color := mkColor r g b 255.

(** The classes of the values below, as [type(value)] returns them. *)
Inductive pytype : Type :=
| TNoneType | TDefault | Tint | Tfloat | Tstr | Tbytes | TColor | Ttuple | Tdict.

(** The Python values a caller can hand to a setter or find in a dictionary,
    with the types of Python 3: [VStr] is a [str], [VBytes] a [bytes], and
    [VDefault] is [ladybug_display.altnumber.default]. *)
Inductive pyval : Type :=
| VNone
| VDefault
| VInt (z : Z)
| VFloat (f : float)
| VStr (s : string)
| VBytes (s : string)
| VColor (c : Color)
| VTuple (l : list pyval)
| VDict (d : gmap string pyval).

Definition py_type (v : pyval) : pytype :=
  match v with
  | VNone => TNoneType
  | VDefault => TDefault
  | VInt _ => Tint
  | VFloat _ => Tfloat
  | VStr _ => Tstr
  | VBytes _ => Tbytes
  | VColor _ => TColor
  | VTuple _ => Ttuple
  | VDict _ => Tdict
  end.

Definition is_str (v : pyval) : bool :=
  match v with VStr _ => true | _ => false end.

(** ** Exceptions *)

(** The text of an exception, as the source builds it: a template whose [{}]
    fields are filled by [str.format] with values or with classes. *)
Inductive piece : Type :=
| Lit (s : string)
| Arg (v : pyval)
| ArgType (t : pytype).

Definition message : Type := list piece.

Inductive exn : Type :=
| AssertionError (m : message)
| ValueError (m : message)
| TypeError (m : message)
| AttributeError (t : pytype) (attr : string)
| KeyError (k : string).

Definition is_ValueError (e : exn) : bool :=
  match e with ValueError _ => true | _ => false end.

(** [render show m] is the text of the message [m], [show] standing for
    Python's conversion of a formatted argument to text. *)
Definition render_piece (show : pyval -> string) (show_type : pytype -> string)
    (p : piece) : string :=
  match p with
  | Lit s => s
  | Arg v => show v
  | ArgType t => show_type t
  end.

Fixpoint render (show : pyval -> string) (show_type : pytype -> string)
    (m : message) : string :=
  match m with
  | [] => EmptyString
  | p :: rest => render_piece show show_type p +:+ render show show_type rest
  end.

(** [s] occurs in [t]. *)
Definition occurs_in (s t : string) : Prop :=
  exists pre post, t = pre +:+ s +:+ post.

(** ** Computations *)

(** A pure computation that may raise. *)
Inductive result (A : Type) : Type :=
| Ok (x : A)
| Raise (e : exn).
Arguments Ok {A} x.
Arguments Raise {A} e.

#[global] Instance result_ret : MRet result := fun _ x => Ok x.
#[global] Instance result_bind : MBind result := fun _ _ k m =>
  match m with
  | Ok x => k x
  | Raise e => Raise e
  end.

(** A method of an object with slots [S]: it reads and writes the slots and
    may raise; the slots as they are when it raises are kept. *)
Definition Py (S A : Type) : Type := S -> result A * S.

#[global] Instance Py_ret {S} : MRet (Py S) := fun _ x s => (Ok x, s).
#[global] Instance Py_bind {S} : MBind (Py S) := fun _ _ k m s =>
  match m s with
  | (Ok x, s') => k x s'
  | (Raise e, s') => (Raise e, s')
  end.

Definition get {S} : Py S S := fun s => (Ok s, s).
Definition modify {S} (f : S -> S) : Py S unit := fun s => (Ok tt, f s).

(** The value or the exception of a pure computation, inside a method. *)
Definition lift {S A} (m : result A) : Py S A := fun s => (m, s).

(** A method of a parent class run on an object of a subclass: it works on
    the parent's slots and leaves the subclass's own slots alone. *)
Definition inherited {S P A} (parent : S -> P) (with_parent : P -> S -> S)
    (m : Py P A) : Py S A := fun s =>
  let '(x, p) := m (parent s) in (x, with_parent p s).

(** ** Package constants and validation helpers *)

(** Modelled from the spec: [ladybug_display._base.LINE_TYPES], which is not
    part of these sources; the four members are the ones the docstring of
    [_LineCurveBase2D] lists, in that order. *)
Definition LINE_TYPES : list string :=
  ["Continuous"; "Dashed"; "Dotted"; "DashDot"].

(** Modelled from the spec: the comparison [value == default] of
    [ladybug_display.altnumber], which is not part of these sources.  The
    sentinel is distinct from every number, and equal to itself only. *)
Definition eq_default (value : pyval) : bool :=
  match value with VDefault => true | _ => false end.

(** The float nearest to an integer (ties to even), infinite when the integer
    is beyond the range of binary64. *)
Definition float_of_Z (z : Z) : float :=
  SF2Prim (binary_normalize prec emax z 0 false).

(** [float(text)] for a [str] and for a [bytes]: the interpreter's own reading
    of a number written out as text (a sign, digits, a fraction, an exponent,
    [inf], [nan], blanks around them), with no result where the text is no
    number.  The reading is the interpreter's, not this package's, and is
    taken as it is given. *)
Class Interpreter : Type := {
  float_of_str : string -> option float;
  float_of_bytes : string -> option float
}.

(** [float(value)]: a [float] is itself; an [int] is rounded to the nearest
    float and has none when it is too large for one; a [str] or a [bytes] is
    read by the interpreter; no other value here has a float. *)
Definition py_float {python : Interpreter} (value : pyval) : option float :=
  match value with
  | VInt z =>
      let number := float_of_Z z in
      if is_infinity number then None else Some number
  | VFloat f => Some f
  | VStr s => float_of_str s
  | VBytes s => float_of_bytes s
  | _ => None
  end.

(** Modelled from the spec: [ladybug_display.typing.float_positive], which is
    not part of these sources.  It returns [float(value)] when there is one
    and it is strictly greater than zero, and fails with a [ValueError] that
    names the field and the value otherwise. *)
Definition float_positive {python : Interpreter} (value : pyval)
    (input_name : string) : result float :=
  match py_float value with
  | Some number =>
      if (0 <? number)%float then Ok number
      else Raise (ValueError [Lit "Input "; Lit input_name;
                              Lit " must be greater than 0. Got "; Arg value])
  | None =>
      Raise (ValueError [Lit "Input "; Lit input_name;
                         Lit " must be a number. Got "; Arg value])
  end.

(** [value.lower()]: [str] and [bytes] have the method, the other values do
    not and the attribute access fails. *)
Definition py_lower (value : pyval) : result pyval :=
  match value with
  | VStr s => Ok (VStr (lower s))
  | VBytes s => Ok (VBytes (lower s))
  | _ => Raise (AttributeError (py_type value) "lower")
  end.

(** [key.lower() == clean_input] for a [str] key: a [str] equals only a [str]
    with the same characters. *)
Definition lower_eqb (key : string) (clean_input : pyval) : bool :=
  match clean_input with
  | VStr s => String.eqb (lower key) s
  | _ => false
  end.

(** The [for key in KEYS: ... break ... else: ...] loop of the two enumerated
    setters: the first key that matches, or [None] when the loop runs to its
    end and the [else] branch is taken. *)
Fixpoint first_match (keys : list string) (clean_input : pyval) : option string :=
  match keys with
  | [] => None
  | key :: rest =>
      if lower_eqb key clean_input then Some key else first_match rest clean_input
  end.

Definition not_recognized (name : string) (value : pyval) (keys : list string)
    : message :=
  [Lit (name +:+ " "); Arg value;
   Lit (" is not recognized." +:+ newline +:+ "Choose from the following:" +:+ newline);
   Arg (VTuple (VStr <$> keys))].

(** ** The geometry library *)

(** What the wrappers ask of a ladybug-geometry value: the four transforms,
    each returning a new value. *)
Class Geometry (G : Type) : Type := {
  Vector : Type;
  Point : Type;
  geo_move : G -> Vector -> G;
  geo_rotate : G -> float -> Point -> G;
  geo_reflect : G -> Vector -> Point -> G;
  geo_scale : G -> float -> option Point -> G
}.

(** Its own serialisation, to which [to_dict] and [from_dict] delegate. *)
Class GeometryDict (G : Type) : Type := {
  geo_to_dict : G -> gmap string pyval;
  geo_from_dict : pyval -> result G
}.

(** ** The attribute base classes of [geometry2d/_base.py] *)

Section Base2D.
Context {G : Type} `{Geometry G} {python : Interpreter}.

(** [math.radians], of the Python standard library. *)
Variable math_radians : float -> float.

(** [ladybug_display._base.DISPLAY_MODES], which is not part of these
    sources: the tuple of the display modes, in canonical casing. *)
Variable DISPLAY_MODES : list string.

(** *** [_DisplayBase2D] *)

(** The slots of [_DisplayBase], which [_DisplayBase2D] inherits and to which
    it adds none: the wrapped geometry and the caller's [user_data]. *)
Record _DisplayBase2D : Type := mk_DisplayBase2D {
  _geometry : G;
  _user_data : gmap string pyval
}.

Definition set_geometry (geometry : G) (self : _DisplayBase2D) : _DisplayBase2D :=
  {| _geometry := geometry; _user_data := _user_data self |}.

(** Modelled from the spec: [_DisplayBase.__init__], which is not part of
    these sources.  It stores the geometry; [user_data] starts empty. *)
Definition _DisplayBase2D_init (geometry : G) : _DisplayBase2D :=
  {| _geometry := geometry; _user_data := ∅ |}.

Definition _DisplayBase2D_move (moving_vec : Vector) : Py _DisplayBase2D unit :=
  self ← get;
  modify (set_geometry (geo_move (_geometry self) moving_vec)).

Definition _DisplayBase2D_rotate (angle : float) (origin : Point)
    : Py _DisplayBase2D unit :=
  self ← get;
  modify (set_geometry (geo_rotate (_geometry self) (math_radians angle) origin)).

Definition _DisplayBase2D_reflect (normal : Vector) (origin : Point)
    : Py _DisplayBase2D unit :=
  self ← get;
  modify (set_geometry (geo_reflect (_geometry self) normal origin)).

Definition _DisplayBase2D_scale (factor : float) (origin : option Point)
    : Py _DisplayBase2D unit :=
  self ← get;
  modify (set_geometry (geo_scale (_geometry self) factor origin)).

Definition _DisplayBase2D_transfer_attributes (other_obj : _DisplayBase2D)
    : Py _DisplayBase2D unit :=
  mret tt.

(** *** [_SingleColorBase2D] *)

Record _SingleColorBase2D : Type := mk_SingleColorBase2D {
  color_super : _DisplayBase2D;
  _color : Color
}.

Definition set_color_super (base : _DisplayBase2D) (self : _SingleColorBase2D)
    : _SingleColorBase2D :=
  {| color_super := base; _color := _color self |}.

Definition set_color (value : Color) (self : _SingleColorBase2D)
    : _SingleColorBase2D :=
  {| color_super := color_super self; _color := value |}.

(** The first five lines of the [color] setter: what it is about to store,
    or the failed assertion. *)
Definition color_value (value : pyval) : result Color :=
  match value with
  | VNone => Ok (Color_new 0 0 0)
  | VColor c => Ok c
  | _ => Raise (AssertionError
                  [Lit "Expected Color for ladybug_display object color. Got ";
                   ArgType (py_type value); Lit "."])
  end.

Definition _SingleColorBase2D_color (value : pyval) : Py _SingleColorBase2D unit :=
  value ← lift (color_value value);
  modify (set_color value).

Definition _SingleColorBase2D_init (geometry : G) (color : pyval)
    : result _SingleColorBase2D :=
  value ← color_value color;
  mret {| color_super := _DisplayBase2D_init geometry; _color := value |}.

Definition _SingleColorBase2D_transfer_attributes (other_obj : _SingleColorBase2D)
    : Py _SingleColorBase2D unit :=
  modify (set_color (_color other_obj)).

(** *** [_SingleColorModeBase2D] *)

Record _SingleColorModeBase2D : Type := mk_SingleColorModeBase2D {
  mode_super : _SingleColorBase2D;
  _display_mode : string
}.

Definition set_mode_super (base : _SingleColorBase2D)
    (self : _SingleColorModeBase2D) : _SingleColorModeBase2D :=
  {| mode_super := base; _display_mode := _display_mode self |}.

Definition set_display_mode (value : string) (self : _SingleColorModeBase2D)
    : _SingleColorModeBase2D :=
  {| mode_super := mode_super self; _display_mode := value |}.

(** The [display_mode] setter up to its last line: the canonical key, or
    the exception. *)
Definition display_mode_value (value : pyval) : result string :=
  clean_input ← py_lower value;
  match first_match DISPLAY_MODES clean_input with
  | Some key => Ok key
  | None => Raise (ValueError (not_recognized "display_mode" value DISPLAY_MODES))
  end.

Definition _SingleColorModeBase2D_display_mode (value : pyval)
    : Py _SingleColorModeBase2D unit :=
  value ← lift (display_mode_value value);
  modify (set_display_mode value).

Definition _SingleColorModeBase2D_init (geometry : G) (color display_mode : pyval)
    : result _SingleColorModeBase2D :=
  base ← _SingleColorBase2D_init geometry color;
  value ← display_mode_value display_mode;
  mret {| mode_super := base; _display_mode := value |}.

Definition _SingleColorModeBase2D_transfer_attributes
    (other_obj : _SingleColorModeBase2D) : Py _SingleColorModeBase2D unit :=
  modify (fun self =>
    set_mode_super (set_color (_color (mode_super other_obj)) (mode_super self)) self);;
  modify (set_display_mode (_display_mode other_obj)).

(** *** [_LineCurveBase2D] *)

(** What the [_line_width] slot holds: the [default] sentinel or the float
    [float_positive] returned. *)
Inductive line_width_slot : Type :=
| LineWidthDefault
| LineWidth (number : float).

Record _LineCurveBase2D : Type := mk_LineCurveBase2D {
  line_super : _SingleColorBase2D;
  _line_width : line_width_slot;
  _line_type : string
}.

Definition set_line_super (base : _SingleColorBase2D) (self : _LineCurveBase2D)
    : _LineCurveBase2D :=
  {| line_super := base; _line_width := _line_width self;
     _line_type := _line_type self |}.

Definition set_line_width (value : line_width_slot) (self : _LineCurveBase2D)
    : _LineCurveBase2D :=
  {| line_super := line_super self; _line_width := value;
     _line_type := _line_type self |}.

Definition set_line_type (value : string) (self : _LineCurveBase2D)
    : _LineCurveBase2D :=
  {| line_super := line_super self; _line_width := _line_width self;
     _line_type := value |}.

Definition _LineCurveBase2D_line_width (value : pyval) : Py _LineCurveBase2D unit :=
  if eq_default value then
    modify (set_line_width LineWidthDefault)
  else
    number ← lift (float_positive value "line width");
    modify (set_line_width (LineWidth number)).

(** The [line_type] setter up to its last line. *)
Definition line_type_value (value : pyval) : result string :=
  clean_input ← py_lower value;
  match first_match LINE_TYPES clean_input with
  | Some key => Ok key
  | None => Raise (ValueError (not_recognized "line_type" value LINE_TYPES))
  end.

Definition _LineCurveBase2D_line_type (value : pyval) : Py _LineCurveBase2D unit :=
  value ← lift (line_type_value value);
  modify (set_line_type value).

(** The object [__init__] is building: its slots are filled one setter after
    the other, and the first that raises ends the construction. *)
Definition _LineCurveBase2D_init (geometry : G) (color line_width line_type : pyval)
    : result _LineCurveBase2D :=
  base ← _SingleColorBase2D_init geometry color;
  width ← (if eq_default line_width then Ok LineWidthDefault
           else number ← float_positive line_width "line width";
                mret (LineWidth number));
  value ← line_type_value line_type;
  mret {| line_super := base; _line_width := width; _line_type := value |}.

Definition _LineCurveBase2D_transfer_attributes (other_obj : _LineCurveBase2D)
    : Py _LineCurveBase2D unit :=
  modify (fun self =>
    set_line_super (set_color (_color (line_super other_obj)) (line_super self)) self);;
  modify (set_line_width (_line_width other_obj));;
  modify (set_line_type (_line_type other_obj)).

(** *** Inherited methods *)

(** The [color] setter and the four transforms are defined once and reach
    the subclasses by inheritance. *)
Definition as_color {A} (m : Py _DisplayBase2D A) : Py _SingleColorBase2D A :=
  inherited color_super set_color_super m.
Definition as_mode {A} (m : Py _SingleColorBase2D A) : Py _SingleColorModeBase2D A :=
  inherited mode_super set_mode_super m.
Definition as_line {A} (m : Py _SingleColorBase2D A) : Py _LineCurveBase2D A :=
  inherited line_super set_line_super m.

(** The four transforms, as one type of call. *)
Inductive transform : Type :=
| Move (moving_vec : Vector)
| Rotate (angle : float) (origin : Point)
| Reflect (normal : Vector) (origin : Point)
| Scale (factor : float) (origin : option Point).

Definition call (t : transform) : Py _DisplayBase2D unit :=
  match t with
  | Move moving_vec => _DisplayBase2D_move moving_vec
  | Rotate angle origin => _DisplayBase2D_rotate angle origin
  | Reflect normal origin => _DisplayBase2D_reflect normal origin
  | Scale factor origin => _DisplayBase2D_scale factor origin
  end.

(** The geometry the specification expects after the call: the result of
    the wrapped value's operation of the same name on the same arguments,
    the angle of a rotation converted from degrees. *)
Definition expected_geometry (t : transform) (geometry : G) : G :=
  match t with
  | Move moving_vec => geo_move geometry moving_vec
  | Rotate angle origin => geo_rotate geometry (math_radians angle) origin
  | Reflect normal origin => geo_reflect geometry normal origin
  | Scale factor origin => geo_scale geometry factor origin
  end.
End Base2D.

Arguments _DisplayBase2D G : clear implicits.
Arguments _SingleColorBase2D G : clear implicits.
Arguments _SingleColorModeBase2D G : clear implicits.
Arguments _LineCurveBase2D G : clear implicits.
Arguments transform G {_}.

(** ** Serialisation *)

(** [data[key]]. *)
Definition item (data : gmap string pyval) (key : string) : result pyval :=
  match data !! key with
  | Some v => Ok v
  | None => Raise (KeyError key)
  end.

Definition as_dict (v : pyval) : result (gmap string pyval) :=
  match v with
  | VDict d => Ok d
  | _ => Raise (TypeError [Lit "Expected a dictionary. Got "; ArgType (py_type v)])
  end.

Definition as_int (v : pyval) : result Z :=
  match v with
  | VInt z => Ok z
  | _ => Raise (TypeError [Lit "Expected an integer. Got "; ArgType (py_type v)])
  end.

(** Modelled from the spec: the serialisation of [ladybug.color.Color], which
    is not part of these sources; a colour is written as its RGBA components. *)
Definition Color_to_dict (c : Color) : gmap string pyval :=
  {[ "r" := VInt (r c); "g" := VInt (g c); "b" := VInt (b c); "a" := VInt (a c) ]}.

Definition Color_from_dict (v : pyval) : result Color :=
  data ← as_dict v;
  r ← item data "r" ≫= as_int;
  g ← item data "g" ≫= as_int;
  b ← item data "b" ≫= as_int;
  a ← item data "a" ≫= as_int;
  mret (mkColor r g b a).

Section Serialisation.
Context {G : Type} `{GeometryDict G} {python : Interpreter}.
Variable DISPLAY_MODES : list string.

(** Modelled from the spec: the sentinel is written as a tagged value that
    no number can be taken for, a number as itself. *)
Definition line_width_to_value (w : line_width_slot) : pyval :=
  match w with
  | LineWidthDefault => VDict {[ "type" := VStr "Default" ]}
  | LineWidth number => VFloat number
  end.

Definition line_width_of_value (v : pyval) : pyval :=
  match v with
  | VDict d =>
      match d !! "type" with
      | Some (VStr tag) => if String.eqb tag "Default" then VDefault else v
      | _ => v
      end
  | _ => v
  end.

(** [user_data] is written when it is not empty, and read when it is there. *)
Definition add_user_data (user_data base : gmap string pyval)
    : gmap string pyval :=
  match size user_data with
  | O => base
  | S _ => <["user_data" := VDict user_data]> base
  end.

Definition read_user_data (data : gmap string pyval) : gmap string pyval :=
  match data !! "user_data" with
  | Some (VDict user_data) => user_data
  | _ => ∅
  end.

Definition check_type (expected : string) (data : gmap string pyval)
    : result unit :=
  tag ← item data "type";
  match tag with
  | VStr s =>
      if String.eqb s expected then Ok tt
      else Raise (ValueError [Lit "Expected "; Lit expected;
                              Lit " dictionary. Got "; Arg tag])
  | _ => Raise (ValueError [Lit "Expected "; Lit expected;
                            Lit " dictionary. Got "; Arg tag])
  end.

(** Modelled from the spec: [DisplayCylinder] of
    [ladybug_display/geometry3d/cylinder.py], which is not part of these
    sources, with its [to_dict] and [from_dict].  A cylinder carries a colour
    and a display mode, the attributes of [_SingleColorModeBase2D]. *)
Definition DisplayCylinder : Type := _SingleColorModeBase2D G.

Definition DisplayCylinder_to_dict (self : DisplayCylinder) : gmap string pyval :=
  let base := mode_super self in
  add_user_data (_user_data (color_super base))
    {[ "type" := VStr "DisplayCylinder";
       "geometry" := VDict (geo_to_dict (_geometry (color_super base)));
       "color" := VDict (Color_to_dict (_color base));
       "display_mode" := VStr (_display_mode self) ]}.

Definition DisplayCylinder_from_dict (v : pyval) : result DisplayCylinder :=
  data ← as_dict v;
  check_type "DisplayCylinder" data;;
  geometry ← item data "geometry" ≫= geo_from_dict;
  color ← item data "color" ≫= Color_from_dict;
  display_mode ← item data "display_mode";
  self ← _SingleColorModeBase2D_init DISPLAY_MODES geometry (VColor color)
           display_mode;
  mret (set_mode_super
          (set_color_super
             {| _geometry := geometry; _user_data := read_user_data data |}
             (mode_super self))
          self).

(** Modelled from the spec: [DisplayPolyline3D] of
    [ladybug_display/geometry3d/polyline.py], which is not part of these
    sources, with its [to_dict] and [from_dict].  A line-like shape carries
    a colour, a line width and a line type, the attributes of
    [_LineCurveBase2D]. *)
Definition DisplayPolyline3D : Type := _LineCurveBase2D G.

Definition DisplayPolyline3D_to_dict (self : DisplayPolyline3D)
    : gmap string pyval :=
  let base := line_super self in
  add_user_data (_user_data (color_super base))
    {[ "type" := VStr "DisplayPolyline3D";
       "geometry" := VDict (geo_to_dict (_geometry (color_super base)));
       "color" := VDict (Color_to_dict (_color base));
       "line_width" := line_width_to_value (_line_width self);
       "line_type" := VStr (_line_type self) ]}.

Definition DisplayPolyline3D_from_dict (v : pyval) : result DisplayPolyline3D :=
  data ← as_dict v;
  check_type "DisplayPolyline3D" data;;
  geometry ← item data "geometry" ≫= geo_from_dict;
  color ← item data "color" ≫= Color_from_dict;
  line_width ← item data "line_width";
  line_type ← item data "line_type";
  self ← _LineCurveBase2D_init geometry (VColor color)
           (line_width_of_value line_width) line_type;
  mret (set_line_super
          (set_color_super
             {| _geometry := geometry; _user_data := read_user_data data |}
             (line_super self))
          self).

(** *** Valid instances *)

(** The geometry library keeps its own round-trip law on this value. *)
Definition geometry_round_trips (geometry : G) : Prop :=
  exists geometry',
    geo_from_dict (VDict (geo_to_dict geometry)) = Ok geometry'
    /\ geo_to_dict geometry' = geo_to_dict geometry.

(** A value an enumerated setter can have stored: the member of the tuple
    that the loop returns for its lower case. *)
Definition canonical (keys : list string) (value : string) : Prop :=
  first_match keys (VStr (lower value)) = Some value.

(** A value the [line_width] setter can have stored. *)
Definition stored_line_width (w : line_width_slot) : Prop :=
  match w with
  | LineWidthDefault => True
  | LineWidth number => (0 <? number)%float = true
  end.

Definition valid_DisplayCylinder (self : DisplayCylinder) : Prop :=
  geometry_round_trips (_geometry (color_super (mode_super self)))
  /\ canonical DISPLAY_MODES (_display_mode self).

Definition valid_DisplayPolyline3D (self : DisplayPolyline3D) : Prop :=
  geometry_round_trips (_geometry (color_super (line_super self)))
  /\ stored_line_width (_line_width self)
  /\ canonical LINE_TYPES (_line_type self).
End Serialisation.

(** ** The geometry behind the two tested wrappers *)

(** Modelled from the spec: [Point3D], [LineSegment3D], [Polyline3D] and
    [Cylinder] of the geometry library, which are not part of these sources;
    the wrappers pass the derived properties of the geometry through.
    Coordinates are floats; a segment runs between two consecutive vertices
    and its length is the Euclidean norm of its direction; the length of a
    polyline is the sum of the lengths of its segments. *)
Record Point3D : Type := mkPoint3D { pt_x : float; pt_y : float; pt_z : float }.

(** [Point3D(x, y)]: the third coordinate defaults to zero. *)
Definition Point3D_new (x y : float) : Point3D := mkPoint3D x y 0.

Definition Point3D_sub (p q : Point3D) : Point3D :=
  mkPoint3D (pt_x p - pt_x q) (pt_y p - pt_y q) (pt_z p - pt_z q).

Definition magnitude (v : Point3D) : float :=
  PrimFloat.sqrt (pt_x v * pt_x v + pt_y v * pt_y v + pt_z v * pt_z v).

Record LineSegment3D : Type := mkLineSegment3D { seg_p : Point3D; seg_v : Point3D }.

Definition from_end_points (p1 p2 : Point3D) : LineSegment3D :=
  mkLineSegment3D p1 (Point3D_sub p2 p1).

Definition segment_length (seg : LineSegment3D) : float := magnitude (seg_v seg).

Record Polyline3D : Type := mkPolyline3D { vertices : list Point3D }.

Fixpoint segments_from (p : Point3D) (rest : list Point3D) : list LineSegment3D :=
  match rest with
  | [] => []
  | q :: rest' => from_end_points p q :: segments_from q rest'
  end.

Definition segments (pl : Polyline3D) : list LineSegment3D :=
  match vertices pl with
  | [] => []
  | p :: rest => segments_from p rest
  end.

(** [sum(...)], which starts from 0 and adds from the left. *)
Definition float_sum (l : list float) : float :=
  foldl PrimFloat.add 0%float l.

Definition polyline_length (pl : Polyline3D) : float :=
  float_sum (segment_length <$> segments pl).

Definition polyline_p1 (pl : Polyline3D) : option Point3D := head (vertices pl).
Definition polyline_p2 (pl : Polyline3D) : option Point3D := last (vertices pl).

Record Cylinder : Type := mkCylinder {
  center : Point3D;
  axis : Point3D;
  radius : float
}.

Definition Point3D_to_value (p : Point3D) : pyval :=
  VTuple [VFloat (pt_x p); VFloat (pt_y p); VFloat (pt_z p)].

Definition Point3D_from_value (v : pyval) : result Point3D :=
  match v with
  | VTuple [VFloat x; VFloat y; VFloat z] => Ok (mkPoint3D x y z)
  | _ => Raise (TypeError [Lit "Expected three coordinates. Got "; Arg v])
  end.

Fixpoint points_from_values (l : list pyval) : result (list Point3D) :=
  match l with
  | [] => Ok []
  | v :: rest =>
      p ← Point3D_from_value v;
      ps ← points_from_values rest;
      mret (p :: ps)
  end.

#[global] Instance Polyline3D_dict : GeometryDict Polyline3D := {|
  geo_to_dict pl :=
    {[ "type" := VStr "Polyline3D";
       "vertices" := VTuple (Point3D_to_value <$> vertices pl) ]};
  geo_from_dict v :=
    data ← as_dict v;
    vs ← item data "vertices";
    match vs with
    | VTuple l => ps ← points_from_values l; mret (mkPolyline3D ps)
    | _ => Raise (TypeError [Lit "Expected vertices. Got "; Arg vs])
    end
|}.

#[global] Instance Cylinder_dict : GeometryDict Cylinder := {|
  geo_to_dict c :=
    {[ "type" := VStr "Cylinder";
       "center" := Point3D_to_value (center c);
       "axis" := Point3D_to_value (axis c);
       "radius" := VFloat (radius c) ]};
  geo_from_dict v :=
    data ← as_dict v;
    center ← item data "center" ≫= Point3D_from_value;
    axis ← item data "axis" ≫= Point3D_from_value;
    radius ← item data "radius";
    match radius with
    | VFloat r => mret (mkCylinder center axis r)
    | _ => Raise (TypeError [Lit "Expected a radius. Got "; Arg radius])
    end
|}.

(** The pass-through accessors of [DisplayPolyline3D]. *)
Definition wrapped (self : _LineCurveBase2D Polyline3D) : Polyline3D :=
  _geometry (color_super (line_super self)).

Definition DisplayPolyline3D_vertices (self : _LineCurveBase2D Polyline3D) :=
  vertices (wrapped self).
Definition DisplayPolyline3D_segments (self : _LineCurveBase2D Polyline3D) :=
  segments (wrapped self).
Definition DisplayPolyline3D_length (self : _LineCurveBase2D Polyline3D) :=
  polyline_length (wrapped self).
Definition DisplayPolyline3D_p1 (self : _LineCurveBase2D Polyline3D) :=
  polyline_p1 (wrapped self).
Definition DisplayPolyline3D_p2 (self : _LineCurveBase2D Polyline3D) :=
  polyline_p2 (wrapped self).

(** [DisplayPolyline3D(geometry, color)]: the line width and the line type
    take their defaults, [default] and ['Continuous']. *)
Definition DisplayPolyline3D_new {python : Interpreter} (geometry : Polyline3D)
    (color : pyval) : result (_LineCurveBase2D Polyline3D) :=
  _LineCurveBase2D_init geometry color VDefault (VStr "Continuous").

(** ** The extension hook of [_extend_ladybug.py] *)

Section Extension.
(** What a class attribute can hold. *)
Variable attribute : Type.

(** The two functions the module imports from [.extension]. *)
Variables compass_to_vis_set sunpath_to_vis_set : attribute.

(** The two classes the module imports, each with its attributes by name. *)
Record classes : Type := mkClasses {
  Compass : gmap string attribute;
  Sunpath : gmap string attribute
}.

Definition set_Compass (name : string) (value : attribute) (env : classes)
    : classes :=
  {| Compass := <[name := value]> (Compass env); Sunpath := Sunpath env |}.

Definition set_Sunpath (name : string) (value : attribute) (env : classes)
    : classes :=
  {| Compass := Compass env; Sunpath := <[name := value]> (Sunpath env) |}.

(** The two assignments the module makes when it is loaded. *)
Definition _extend_ladybug : Py classes unit :=
  modify (set_Compass "to_vis_set" compass_to_vis_set);;
  modify (set_Sunpath "to_vis_set" sunpath_to_vis_set).
End Extension.

Arguments Compass {attribute} _.
Arguments Sunpath {attribute} _.
Arguments mkClasses {attribute} _ _.

(** ** Sequences of calls and class invariants *)

Section Sequences.
Context {G : Type} `{Geometry G} {python : Interpreter}.
Variable math_radians : float -> float.

(** [for t in ts: t(self)]: the transforms of a list, called one after the
    other on the same wrapper. *)
Fixpoint calls (ts : list (transform G)) : Py (_DisplayBase2D G) unit :=
  match ts with
  | [] => mret tt
  | t :: rest => call math_radians t;; calls rest
  end.

(** The geometry library's operations of a list, applied one after the other
    to a geometry value. *)
Definition expected_geometries (ts : list (transform G)) (geometry : G) : G :=
  foldl (fun g t => expected_geometry math_radians t g) geometry ts.
End Sequences.

(** The enumerated attributes hold members of their tuples. *)
Definition line_type_listed {G : Type} (self : _LineCurveBase2D G) : Prop :=
  In (_line_type self) LINE_TYPES.

Definition display_mode_listed {G : Type} (DISPLAY_MODES : list string)
    (self : _SingleColorModeBase2D G) : Prop :=
  In (_display_mode self) DISPLAY_MODES.

(** The slots of [_DisplayBase] inside a wrapper of each subclass. *)
Definition line_base {G : Type} (self : _LineCurveBase2D G) : _DisplayBase2D G :=
  color_super (line_super self).

Definition mode_base {G : Type} (self : _SingleColorModeBase2D G)
    : _DisplayBase2D G :=
  color_super (mode_super self).

(** A geometry value that only records the operations applied to it, in
    order: a stand-in for a ladybug-geometry object where the properties are
    run on a concrete wrapper. *)
Inductive recorded : Type :=
| Moved (moving_vec : Point3D)
| Rotated (angle : float) (origin : Point3D)
| Reflected (normal origin : Point3D)
| Scaled (factor : float) (origin : option Point3D).

#[global] Instance recording_geometry : Geometry (list recorded) := {|
  Vector := Point3D;
  Point := Point3D;
  geo_move g moving_vec := g ++ [Moved moving_vec];
  geo_rotate g angle origin := g ++ [Rotated angle origin];
  geo_reflect g normal origin := g ++ [Reflected normal origin];
  geo_scale g factor origin := g ++ [Scaled factor origin]
|}.

(** ** The objects of the tests *)

(** [Color(100, 100, 100)] and [Color(0, 0, 100)]. *)
Definition grey : Color := Color_new 100 100 100.
Definition blue : Color := Color_new 0 0 100.

(** The four points of [test_display_polyline3d_init]: a path along three
    sides of a square of side 2. *)
Definition square_pts : list Point3D :=
  [Point3D_new 0 0; Point3D_new 2 0; Point3D_new 2 2; Point3D_new 0 2].

Definition square : Polyline3D := mkPolyline3D square_pts.

(** [DisplayPolyline3D(Polyline3D(pts), grey)], once built. *)
Definition display_square : _LineCurveBase2D Polyline3D :=
  {| line_super :=
       {| color_super := {| _geometry := square; _user_data := ∅ |};
          _color := grey |};
     _line_width := LineWidthDefault;
     _line_type := "Continuous" |}.

(** The same wrapper after [pline.line_width = 2] and
    [pline.line_type = 'Dashed'], as [test_polyline3d_to_from_dict] has it. *)
Definition dashed_square : _LineCurveBase2D Polyline3D :=
  {| line_super := line_super display_square;
     _line_width := LineWidth 2;
     _line_type := "Dashed" |}.

(** The display modes the specification names. *)
Definition named_modes : list string :=
  ["Surface"; "SurfaceWithEdges"; "Wireframe"].

(** The cylinder of [test_cylinder_init], with centre (2, 0, 2), axis
    (0, 2, 2) and radius 0.7, and [DisplayCylinder(cylinder, grey)]. *)
Definition cylinder : Cylinder :=
  mkCylinder (mkPoint3D 2 0 2) (mkPoint3D 0 2 2) 0x1.6666666666666p-1.

Definition display_cylinder : _SingleColorModeBase2D Cylinder :=
  {| mode_super :=
       {| color_super := {| _geometry := cylinder; _user_data := ∅ |};
          _color := grey |};
     _display_mode := "Surface" |}.

(** A line-like wrapper and a surface wrapper on a recording geometry to
    which nothing has been applied yet. *)
Definition traced_line : _LineCurveBase2D (list recorded) :=
  {| line_super :=
       {| color_super := {| _geometry := []; _user_data := ∅ |}; _color := grey |};
     _line_width := LineWidthDefault;
     _line_type := "Continuous" |}.

Definition traced_surface : _SingleColorModeBase2D (list recorded) :=
  {| mode_super :=
       {| color_super := {| _geometry := []; _user_data := ∅ |}; _color := grey |};
     _display_mode := "Surface" |}.

(** The number that a text of ASCII decimal digits writes. *)
Fixpoint digits_value (acc : Z) (s : string) : option Z :=
  match s with
  | EmptyString => Some acc
  | String c rest =>
      let n := Z.of_nat (nat_of_ascii c) in
      if (48 <=? n)%Z && (n <=? 57)%Z
      then digits_value (10 * acc + (n - 48)) rest
      else None
  end.

(** [float(text)] on a text made of ASCII decimal digits and nothing else
    ([float('2')] is [2.0]): the float nearest to the integer written, as for
    an [int], infinite beyond the range of binary64. *)
Definition float_of_digits (s : string) : option float :=
  match s with
  | EmptyString => None
  | _ => float_of_Z <$> digits_value 0 s
  end.

(** The interpreter the examples are run with.  The only texts they hand to
    [float] are made of decimal digits or of letters, which are no number;
    texts of another form are not read by this instance. *)
Definition reading_digits : Interpreter :=
  {| float_of_str := float_of_digits; float_of_bytes := float_of_digits |}.

(** A conversion from degrees to radians on floats, to run [rotate] with. *)
Definition degrees_to_radians (angle : float) : float :=
  (angle * (0x1.921fb54442d18p+1 / 180))%float.

(** * Properties *)

(** ** Running a method *)

Ltac run :=
  unfold "≫=", mbind, mret, Py_bind, Py_ret, result_bind, result_ret,
    lift, modify, get, inherited in *;
  cbn in *.

Lemma lower_eqb_str (key s : string) :
  lower_eqb key (VStr s) = true <-> lower key = s.
Proof. cbn. apply String.eqb_eq. Qed.

Lemma first_match_Some (keys : list string) (clean_input : pyval) (key : string) :
  first_match keys clean_input = Some key ->
  In key keys /\ lower_eqb key clean_input = true.
Proof.
  induction keys as [|k keys IH]; cbn; [discriminate|].
  destruct (lower_eqb k clean_input) eqn:E.
  - intros [= <-]. auto.
  - intros Hm. destruct (IH Hm). auto.
Qed.

Lemma first_match_None (keys : list string) (clean_input : pyval) :
  first_match keys clean_input = None <->
  forall key, In key keys -> lower_eqb key clean_input = false.
Proof.
  induction keys as [|k keys IH]; cbn.
  - split; [intros _ key []|reflexivity].
  - destruct (lower_eqb k clean_input) eqn:E.
    + split; [discriminate|]. intros Hall.
      specialize (Hall k (or_introl eq_refl)). congruence.
    + rewrite IH. split.
      * intros Hall key [<-|Hin]; auto.
      * intros Hall key Hin. apply Hall. auto.
Qed.

(** A tuple whose members differ even when case is ignored: the member an
    input matches is then the only one, and the loop stops on it. *)
Lemma first_match_member (keys : list string) (key s : string) :
  NoDup (lower <$> keys) -> In key keys -> lower key = s ->
  first_match keys (VStr s) = Some key.
Proof.
  induction keys as [|k keys IH]; cbn; [intros _ []|].
  intros Hnd [->|Hin] Hs.
  - apply String.eqb_eq in Hs. by rewrite Hs.
  - apply NoDup_cons in Hnd as [Hk Hnd].
    destruct (String.eqb (lower k) s) eqn:E.
    + apply String.eqb_eq in E. exfalso. apply Hk.
      apply list_elem_of_fmap. exists key. split; [congruence|].
      by apply list_elem_of_In.
    + auto.
Qed.

(** A key the loop has returned is returned again for its own lower case. *)
Lemma first_match_again (keys : list string) (clean_input : pyval) (key : string) :
  first_match keys clean_input = Some key ->
  first_match keys (VStr (lower key)) = Some key.
Proof.
  intros Hm. destruct (first_match_Some _ _ _ Hm) as [_ Hk].
  destruct clean_input as [| | | |s| | | |]; try discriminate Hk.
  apply lower_eqb_str in Hk. subst s.
  induction keys as [|k keys IH]; cbn in *; [discriminate|].
  destruct (String.eqb (lower k) (lower key)) eqn:E; [exact Hm|by apply IH].
Qed.

Lemma LINE_TYPES_NoDup : NoDup (lower <$> LINE_TYPES).
Proof. apply (bool_decide_unpack _). vm_compute. exact I. Qed.

(** ** Floats around zero *)



(** ** The setters *)

Section Setters.
Context {G : Type} {python : Interpreter}.
Variable DISPLAY_MODES : list string.

(** C5: on a single-colour wrapper, setting [color] to [None] stores opaque
    black, R=0, G=0, B=0, A=255: the call succeeds and the colour read from
    the wrapper afterwards is that one; a [Color] is stored as it is; any
    other value fails with the assertion error whose message carries the
    class of the value received, and the colour in the wrapper stays what it
    was: nothing is coerced. *)
Theorem C5_color_setter (self : _SingleColorBase2D G) (value : pyval) :
  _SingleColorBase2D_color VNone self = (Ok tt, set_color (mkColor 0 0 0 255) self)
  /\ (forall c, _SingleColorBase2D_color (VColor c) self = (Ok tt, set_color c self))
  /\ (value <> VNone -> (forall c, value <> VColor c) ->
      _SingleColorBase2D_color value self =
        (Raise (AssertionError
                  [Lit "Expected Color for ladybug_display object color. Got ";
                   ArgType (py_type value); Lit "."]),
         self))
  /\ ((_SingleColorBase2D_color VNone self).1 = Ok tt
      /\ _color (_SingleColorBase2D_color VNone self).2 = mkColor 0 0 0 255
      /\ r (_color (_SingleColorBase2D_color VNone self).2) = 0%Z
      /\ g (_color (_SingleColorBase2D_color VNone self).2) = 0%Z
      /\ b (_color (_SingleColorBase2D_color VNone self).2) = 0%Z
      /\ a (_color (_SingleColorBase2D_color VNone self).2) = 255%Z
      /\ color_super (_SingleColorBase2D_color VNone self).2 = color_super self)
  /\ (forall c,
        (_SingleColorBase2D_color (VColor c) self).1 = Ok tt
        /\ _color (_SingleColorBase2D_color (VColor c) self).2 = c
        /\ color_super (_SingleColorBase2D_color (VColor c) self).2
           = color_super self)
  /\ (value <> VNone -> (forall c, value <> VColor c) ->
      _color (_SingleColorBase2D_color value self).2 = _color self).
Proof.
  split; [reflexivity|]. split; [reflexivity|]. split.
  { intros Hnone Hcolor. destruct value; try reflexivity.
    - by destruct Hnone.
    - by destruct (Hcolor c). }
  split; [by repeat split|]. split; [by repeat split|].
  intros Hnone Hcolor. destruct value; try reflexivity.
  - by destruct Hnone.
  - by destruct (Hcolor c).
Qed.

End Setters.

Section Atomicity.
Context {G : Type} {python : Interpreter}.
Variable DISPLAY_MODES : list string.

Lemma set_mode_super_same (self : _SingleColorModeBase2D G) :
  set_mode_super (mode_super self) self = self.
Proof. by destruct self. Qed.

Lemma set_line_super_same (self : _LineCurveBase2D G) :
  set_line_super (line_super self) self = self.
Proof. by destruct self. Qed.

Lemma color_raises (value : pyval) (self self' : _SingleColorBase2D G) (e : exn) :
  _SingleColorBase2D_color value self = (Raise e, self') -> self' = self.
Proof.
  unfold _SingleColorBase2D_color. run.
  destruct (color_value value); congruence.
Qed.

(** C9: each of the four setters validates before it assigns: a call that
    raises leaves the wrapper, the attribute it was to set and every other
    field, as it was before the call.  The [color] setter is the one of
    [_SingleColorBase2D], also where the two subclasses inherit it. *)
Theorem C9_setters_atomic (value : pyval) (e : exn) :
  (forall self self' : _SingleColorBase2D G,
     _SingleColorBase2D_color value self = (Raise e, self') -> self' = self)
  /\ (forall self self' : _SingleColorModeBase2D G,
        as_mode (_SingleColorBase2D_color value) self = (Raise e, self') ->
        self' = self)
  /\ (forall self self' : _LineCurveBase2D G,
        as_line (_SingleColorBase2D_color value) self = (Raise e, self') ->
        self' = self)
  /\ (forall self self' : _SingleColorModeBase2D G,
        _SingleColorModeBase2D_display_mode DISPLAY_MODES value self
          = (Raise e, self') ->
        self' = self)
  /\ (forall self self' : _LineCurveBase2D G,
        _LineCurveBase2D_line_width value self = (Raise e, self') ->
        self' = self)
  /\ (forall self self' : _LineCurveBase2D G,
        _LineCurveBase2D_line_type value self = (Raise e, self') ->
        self' = self).
Proof.
  repeat split; intros self self'.
  - apply color_raises.
  - unfold as_mode, inherited.
    destruct (_SingleColorBase2D_color value (mode_super self)) as [res base] eqn:E.
    intros [= -> <-]. apply color_raises in E as ->. apply set_mode_super_same.
  - unfold as_line, inherited.
    destruct (_SingleColorBase2D_color value (line_super self)) as [res base] eqn:E.
    intros [= -> <-]. apply color_raises in E as ->. apply set_line_super_same.
  - unfold _SingleColorModeBase2D_display_mode. run.
    destruct (display_mode_value DISPLAY_MODES value); congruence.
  - unfold _LineCurveBase2D_line_width.
    destruct (eq_default value); run; [congruence|].
    destruct (float_positive value "line width"); congruence.
  - unfold _LineCurveBase2D_line_type. run.
    destruct (line_type_value value); congruence.
Qed.
End Atomicity.

(** ** The text of the enumerated setters' error *)

Lemma append_assoc (s t u : string) : (s +:+ t) +:+ u = s +:+ (t +:+ u).
Proof.
  induction s as [|c s IH]; [reflexivity|].
  change (String c ((s +:+ t) +:+ u) = String c (s +:+ t +:+ u)).
  by rewrite IH.
Qed.

(** However Python prints a value, the text of the error ends with the
    whole tuple of the valid members. *)
Lemma not_recognized_lists_keys (show : pyval -> string)
    (show_type : pytype -> string) (name : string) (value : pyval)
    (keys : list string) :
  occurs_in (show (VTuple (VStr <$> keys)))
            (render show show_type (not_recognized name value keys)).
Proof.
  unfold not_recognized, occurs_in. cbn [render render_piece].
  match goal with
  | |- context [show value +:+ ?l +:+ _] =>
      exists ((name +:+ " ") +:+ show value +:+ l), ""
  end.
  rewrite !append_assoc. reflexivity.
Qed.

Section Enumerated.
Context {G G' : Type} {python : Interpreter}.
Variable DISPLAY_MODES : list string.

Lemma line_type_value_str (s : string) :
  line_type_value (VStr s) =
    match first_match LINE_TYPES (VStr (lower s)) with
    | Some key => Ok key
    | None => Raise (ValueError (not_recognized "line_type" (VStr s) LINE_TYPES))
    end.
Proof. reflexivity. Qed.

Lemma display_mode_value_str (s : string) :
  display_mode_value DISPLAY_MODES (VStr s) =
    match first_match DISPLAY_MODES (VStr (lower s)) with
    | Some key => Ok key
    | None => Raise (ValueError
                       (not_recognized "display_mode" (VStr s) DISPLAY_MODES))
    end.
Proof. reflexivity. Qed.

Lemma no_match (keys : list string) (s : string) :
  (forall key, In key keys -> lower key <> lower s) ->
  first_match keys (VStr (lower s)) = None.
Proof.
  intros Hno. apply first_match_None. intros key Hin.
  destruct (lower_eqb key (VStr (lower s))) eqn:E; [|reflexivity].
  apply lower_eqb_str in E. by destruct (Hno key Hin).
Qed.

(** C2: the members of [DISPLAY_MODES] being distinct also when case is
    ignored, as the four of [LINE_TYPES] are, a string that equals a member
    of the tuple up to case makes the [line_type] or [display_mode] setter
    succeed, and the attribute read from the wrapper afterwards is that
    member in its canonical casing; a string that equals none makes it raise
    a [ValueError] whose text lists the tuple of the valid members, and
    nothing is stored: the attribute is what it was. *)
Theorem C2_enumerated_setters (Hmodes : NoDup (lower <$> DISPLAY_MODES))
    (s : string) (line : _LineCurveBase2D G) (shape : _SingleColorModeBase2D G') :
  (forall key, In key LINE_TYPES -> lower key = lower s ->
     _LineCurveBase2D_line_type (VStr s) line = (Ok tt, set_line_type key line))
  /\ (forall key, In key DISPLAY_MODES -> lower key = lower s ->
        _SingleColorModeBase2D_display_mode DISPLAY_MODES (VStr s) shape
          = (Ok tt, set_display_mode key shape))
  /\ ((forall key, In key LINE_TYPES -> lower key <> lower s) ->
      _LineCurveBase2D_line_type (VStr s) line =
        (Raise (ValueError (not_recognized "line_type" (VStr s) LINE_TYPES)),
         line))
  /\ ((forall key, In key DISPLAY_MODES -> lower key <> lower s) ->
      _SingleColorModeBase2D_display_mode DISPLAY_MODES (VStr s) shape =
        (Raise (ValueError
                  (not_recognized "display_mode" (VStr s) DISPLAY_MODES)),
         shape))
  /\ (forall show show_type,
        occurs_in (show (VTuple (VStr <$> LINE_TYPES)))
          (render show show_type (not_recognized "line_type" (VStr s) LINE_TYPES))
        /\ occurs_in (show (VTuple (VStr <$> DISPLAY_MODES)))
             (render show show_type
                (not_recognized "display_mode" (VStr s) DISPLAY_MODES)))
  /\ (forall key, In key LINE_TYPES -> lower key = lower s ->
        (_LineCurveBase2D_line_type (VStr s) line).1 = Ok tt
        /\ _line_type (_LineCurveBase2D_line_type (VStr s) line).2 = key
        /\ _line_width (_LineCurveBase2D_line_type (VStr s) line).2
           = _line_width line
        /\ line_super (_LineCurveBase2D_line_type (VStr s) line).2
           = line_super line)
  /\ (forall key, In key DISPLAY_MODES -> lower key = lower s ->
        (_SingleColorModeBase2D_display_mode DISPLAY_MODES (VStr s) shape).1
          = Ok tt
        /\ _display_mode
             (_SingleColorModeBase2D_display_mode DISPLAY_MODES (VStr s) shape).2
           = key
        /\ mode_super
             (_SingleColorModeBase2D_display_mode DISPLAY_MODES (VStr s) shape).2
           = mode_super shape)
  /\ ((forall key, In key LINE_TYPES -> lower key <> lower s) ->
      _line_type (_LineCurveBase2D_line_type (VStr s) line).2 = _line_type line)
  /\ ((forall key, In key DISPLAY_MODES -> lower key <> lower s) ->
      _display_mode
        (_SingleColorModeBase2D_display_mode DISPLAY_MODES (VStr s) shape).2
        = _display_mode shape).
Proof.
  assert (forall key, In key LINE_TYPES -> lower key = lower s ->
            _LineCurveBase2D_line_type (VStr s) line
              = (Ok tt, set_line_type key line)) as Hline.
  { intros key Hin Hs. unfold _LineCurveBase2D_line_type.
    rewrite line_type_value_str.
    rewrite (first_match_member _ key _ LINE_TYPES_NoDup Hin Hs). reflexivity. }
  assert (forall key, In key DISPLAY_MODES -> lower key = lower s ->
            _SingleColorModeBase2D_display_mode DISPLAY_MODES (VStr s) shape
              = (Ok tt, set_display_mode key shape)) as Hshape.
  { intros key Hin Hs. unfold _SingleColorModeBase2D_display_mode.
    rewrite display_mode_value_str.
    rewrite (first_match_member _ key _ Hmodes Hin Hs). reflexivity. }
  assert ((forall key, In key LINE_TYPES -> lower key <> lower s) ->
          _LineCurveBase2D_line_type (VStr s) line =
            (Raise (ValueError (not_recognized "line_type" (VStr s) LINE_TYPES)),
             line)) as Hline_no.
  { intros Hno. unfold _LineCurveBase2D_line_type.
    rewrite line_type_value_str, (no_match _ _ Hno). reflexivity. }
  assert ((forall key, In key DISPLAY_MODES -> lower key <> lower s) ->
          _SingleColorModeBase2D_display_mode DISPLAY_MODES (VStr s) shape =
            (Raise (ValueError
                      (not_recognized "display_mode" (VStr s) DISPLAY_MODES)),
             shape)) as Hshape_no.
  { intros Hno. unfold _SingleColorModeBase2D_display_mode.
    rewrite display_mode_value_str, (no_match _ _ Hno). reflexivity. }
  split; [exact Hline|]. split; [exact Hshape|].
  split; [exact Hline_no|]. split; [exact Hshape_no|].
  split; [intros show show_type; split; apply not_recognized_lists_keys|].
  split; [|split; [|split]].
  - intros key Hin Hs. rewrite (Hline key Hin Hs). by repeat split.
  - intros key Hin Hs. rewrite (Hshape key Hin Hs). by repeat split.
  - intros Hno. by rewrite (Hline_no Hno).
  - intros Hno. by rewrite (Hshape_no Hno).
Qed.
End Enumerated.

(** ** Which inputs raise which error *)

Section EnumeratedErrors.
(** Either enumerated setter, up to its last line: [check] is
    [line_type_value] or [display_mode_value]. *)
Variables (name : string) (keys : list string) (check : pyval -> result string).
Hypothesis check_eq : forall value,
  check value =
    clean_input ← py_lower value;
    match first_match keys clean_input with
    | Some key => Ok key
    | None => Raise (ValueError (not_recognized name value keys))
    end.

Lemma first_match_bytes (s : string) : first_match keys (VBytes s) = None.
Proof. apply first_match_None. reflexivity. Qed.

Lemma check_bytes (s : string) :
  check (VBytes s) = Raise (ValueError (not_recognized name (VBytes s) keys)).
Proof.
  rewrite check_eq. cbn. by rewrite first_match_bytes.
Qed.

Lemma check_str_unmatched (s : string) :
  (forall key, In key keys -> lower key <> lower s) ->
  check (VStr s) = Raise (ValueError (not_recognized name (VStr s) keys)).
Proof.
  intros Hno. rewrite check_eq. cbn.
  assert (first_match keys (VStr (lower s)) = None) as ->; [|reflexivity].
  apply first_match_None. intros key Hin.
  destruct (lower_eqb key (VStr (lower s))) eqn:E; [|reflexivity].
  apply lower_eqb_str in E. by destruct (Hno key Hin).
Qed.

Lemma check_no_lower (value : pyval) :
  (forall s, value <> VStr s) -> (forall s, value <> VBytes s) ->
  check value = Raise (AttributeError (py_type value) "lower").
Proof.
  intros Hs Hb. rewrite check_eq.
  destruct value; try reflexivity; [by destruct (Hs s)|by destruct (Hb s)].
Qed.

Lemma check_ValueError (value : pyval) (m : message) :
  check value = Raise (ValueError m) <->
  m = not_recognized name value keys
  /\ ((exists s, value = VStr s
                 /\ forall key, In key keys -> lower key <> lower s)
      \/ exists s, value = VBytes s).
Proof.
  split.
  - destruct value; try (rewrite check_eq; discriminate).
    + rewrite check_eq. cbn.
      destruct (first_match keys (VStr (lower s))) eqn:E; [discriminate|].
      intros [= <-]. split; [reflexivity|]. left. exists s. split; [reflexivity|].
      intros key Hin Hk.
      pose proof (proj1 (first_match_None _ _) E key Hin) as Hf.
      apply lower_eqb_str in Hk. congruence.
    + rewrite check_bytes. intros [= <-]. eauto.
  - intros [-> [(s & -> & Hno)|(s & ->)]].
    + by apply check_str_unmatched.
    + apply check_bytes.
Qed.
End EnumeratedErrors.

Section InputsAndErrors.
Context {G G' : Type} {python : Interpreter}.
Variable DISPLAY_MODES : list string.

(** C10, amended: the [line_type] and [display_mode] setters raise their
    [ValueError], the one listing the valid members, exactly for the inputs
    that have a [lower] method and match no member: a string whose lower
    case is that of no member, and every [bytes] value, since a [bytes] is
    equal to no string.  An input with no [lower] method (None, the default
    sentinel, a number, a colour, a tuple, a dictionary) fails before, on
    [value.lower()], with an [AttributeError].  In each case nothing is
    stored. *)
Theorem C10_errors_by_input (value : pyval)
    (line : _LineCurveBase2D G) (shape : _SingleColorModeBase2D G') :
  (forall m,
     _LineCurveBase2D_line_type value line = (Raise (ValueError m), line) <->
     m = not_recognized "line_type" value LINE_TYPES
     /\ ((exists s, value = VStr s
                    /\ forall key, In key LINE_TYPES -> lower key <> lower s)
         \/ exists s, value = VBytes s))
  /\ (forall m,
        _SingleColorModeBase2D_display_mode DISPLAY_MODES value shape
          = (Raise (ValueError m), shape) <->
        m = not_recognized "display_mode" value DISPLAY_MODES
        /\ ((exists s, value = VStr s
                       /\ forall key, In key DISPLAY_MODES ->
                                      lower key <> lower s)
            \/ exists s, value = VBytes s))
  /\ ((forall s, value <> VStr s) -> (forall s, value <> VBytes s) ->
      _LineCurveBase2D_line_type value line
        = (Raise (AttributeError (py_type value) "lower"), line)
      /\ _SingleColorModeBase2D_display_mode DISPLAY_MODES value shape
         = (Raise (AttributeError (py_type value) "lower"), shape)).
Proof.
  assert (forall (S : Type) (f : string -> S -> S) (check : pyval -> result string)
                 (self : S) (e : exn),
            (value ← lift (check value); modify (f value)) self = (Raise e, self)
            <-> check value = Raise e) as Hrun.
  { intros S f check self e. run. destruct (check value); split; congruence. }
  split; [|split].
  - intros m. unfold _LineCurveBase2D_line_type. rewrite Hrun.
    by apply check_ValueError.
  - intros m. unfold _SingleColorModeBase2D_display_mode. rewrite Hrun.
    by apply check_ValueError.
  - intros Hs Hb. unfold _LineCurveBase2D_line_type,
      _SingleColorModeBase2D_display_mode. rewrite !Hrun.
    split; [by apply (check_no_lower "line_type" LINE_TYPES)
           |by apply (check_no_lower "display_mode" DISPLAY_MODES)].
Qed.
End InputsAndErrors.

(** ** Copying the attributes *)

Section Transfer.
Context {G : Type} {python : Interpreter}.

(** C3: at every level of the hierarchy, [_transfer_attributes] leaves in
    the target every display attribute of the source, those of the level
    itself and those of the levels above it, and what it does is the
    parent's transfer followed by the assignments of the level's own
    attributes: none for [_DisplayBase2D], whose transfer does nothing,
    [color] for [_SingleColorBase2D], [color] and [display_mode] for
    [_SingleColorModeBase2D], [color], [line_width] and [line_type] for
    [_LineCurveBase2D]. *)
Theorem C3_transfer_attributes :
  (forall target source : _DisplayBase2D G,
     _DisplayBase2D_transfer_attributes source target = (Ok tt, target))
  /\ (forall target source : _SingleColorBase2D G,
     exists target',
       _SingleColorBase2D_transfer_attributes source target = (Ok tt, target')
       /\ _color target' = _color source
       /\ (as_color (_DisplayBase2D_transfer_attributes (color_super source));;
           modify (set_color (_color source))) target
          = (Ok tt, target'))
  /\ (forall target source : _SingleColorModeBase2D G,
        exists target',
          _SingleColorModeBase2D_transfer_attributes source target
            = (Ok tt, target')
          /\ _color (mode_super target') = _color (mode_super source)
          /\ _display_mode target' = _display_mode source
          /\ (as_mode (_SingleColorBase2D_transfer_attributes (mode_super source));;
              modify (set_display_mode (_display_mode source))) target
             = (Ok tt, target'))
  /\ (forall target source : _LineCurveBase2D G,
        exists target',
          _LineCurveBase2D_transfer_attributes source target = (Ok tt, target')
          /\ _color (line_super target') = _color (line_super source)
          /\ _line_width target' = _line_width source
          /\ _line_type target' = _line_type source
          /\ (as_line (_SingleColorBase2D_transfer_attributes (line_super source));;
              modify (set_line_width (_line_width source));;
              modify (set_line_type (_line_type source))) target
             = (Ok tt, target')).
Proof.
  split; [reflexivity|].
  split; [|split]; intros target source; eexists; repeat split;
    try reflexivity.
Qed.
End Transfer.

(** ** The four transforms *)

Section Transforms.
Context {G : Type} `{Geometry G} {python : Interpreter}.
Variable math_radians : float -> float.

(** C4: on a wrapper of any of the four classes, [move], [rotate], [reflect]
    and [scale] succeed and leave a wrapper whose geometry is the result of
    the same operation of the wrapped geometry on the same arguments, the
    angle of [rotate] going through [math.radians], and whose [color],
    [line_width], [line_type], [display_mode] and [user_data] are those it
    had before the call. *)
Theorem C4_transforms_replace_geometry (t : transform G) :
  (forall (geometry : G) moving_vec angle normal factor origin scale_origin,
     expected_geometry math_radians (Move moving_vec) geometry
       = geo_move geometry moving_vec
     /\ expected_geometry math_radians (Rotate angle origin) geometry
        = geo_rotate geometry (math_radians angle) origin
     /\ expected_geometry math_radians (Reflect normal origin) geometry
        = geo_reflect geometry normal origin
     /\ expected_geometry math_radians (Scale factor scale_origin) geometry
        = geo_scale geometry factor scale_origin)
  /\ (forall self : _DisplayBase2D G,
        call math_radians t self =
          (Ok tt,
           {| _geometry := expected_geometry math_radians t (_geometry self);
              _user_data := _user_data self |}))
  /\ (forall self : _SingleColorBase2D G,
        as_color (call math_radians t) self =
          (Ok tt,
           {| color_super :=
                {| _geometry := expected_geometry math_radians t
                                  (_geometry (color_super self));
                   _user_data := _user_data (color_super self) |};
              _color := _color self |}))
  /\ (forall self : _SingleColorModeBase2D G,
        as_mode (as_color (call math_radians t)) self =
          (Ok tt,
           {| mode_super :=
                {| color_super :=
                     {| _geometry := expected_geometry math_radians t
                          (_geometry (color_super (mode_super self)));
                        _user_data := _user_data (color_super (mode_super self)) |};
                   _color := _color (mode_super self) |};
              _display_mode := _display_mode self |}))
  /\ (forall self : _LineCurveBase2D G,
        as_line (as_color (call math_radians t)) self =
          (Ok tt,
           {| line_super :=
                {| color_super :=
                     {| _geometry := expected_geometry math_radians t
                          (_geometry (color_super (line_super self)));
                        _user_data := _user_data (color_super (line_super self)) |};
                   _color := _color (line_super self) |};
              _line_width := _line_width self;
              _line_type := _line_type self |})).
Proof.
  split; [by intros|]. repeat split; intros self; destruct t; reflexivity.
Qed.
End Transforms.

(** ** The extension hook *)

Section ExtensionFacts.
Context {attribute : Type}.

(** C8: once the module is loaded, [Compass.to_vis_set] is
    [compass_to_vis_set] and [Sunpath.to_vis_set] is [sunpath_to_vis_set],
    and every attribute of the two classes with another name is what it
    was. *)
Theorem C8_extension_hook (compass_to_vis_set sunpath_to_vis_set : attribute)
    (env : classes attribute) :
  exists env',
    _extend_ladybug attribute compass_to_vis_set sunpath_to_vis_set env
      = (Ok tt, env')
    /\ Compass env' !! "to_vis_set" = Some compass_to_vis_set
    /\ Sunpath env' !! "to_vis_set" = Some sunpath_to_vis_set
    /\ forall name : string, name <> "to_vis_set" ->
         Compass env' !! name = Compass env !! name
         /\ Sunpath env' !! name = Sunpath env !! name.
Proof.
  eexists. split; [reflexivity|]. cbn.
  split; [apply lookup_insert_eq|]. split; [apply lookup_insert_eq|].
  intros name Hname. split; by apply lookup_insert_ne.
Qed.
End ExtensionFacts.

(** ** The square polyline *)

Section SquarePolyline.
Context {python : Interpreter}.

(** C7: the wrapper built from the points (0,0), (2,0), (2,2), (0,2) has
    length 6 and exactly 3 segments, each of length 2; its [p1] is the first
    of the four points and its [p2] the last. *)
Theorem C7_square_polyline :
  exists pline,
    DisplayPolyline3D_new (mkPolyline3D
      [Point3D_new 0 0; Point3D_new 2 0; Point3D_new 2 2; Point3D_new 0 2])
      (VColor grey) = Ok pline
    /\ DisplayPolyline3D_length pline = 6%float
    /\ (DisplayPolyline3D_length pline =? 6)%float = true
    /\ length (DisplayPolyline3D_segments pline) = 3%nat
    /\ Forall (fun seg => segment_length seg = 2%float
                          /\ (segment_length seg =? 2)%float = true)
              (DisplayPolyline3D_segments pline)
    /\ DisplayPolyline3D_p1 pline = Some (Point3D_new 0 0)
    /\ DisplayPolyline3D_p2 pline = Some (Point3D_new 0 2).
Proof.
  exists display_square. split; [reflexivity|].
  repeat split; try reflexivity.
  repeat constructor.
Qed.
End SquarePolyline.

(** ** Round trip through dictionaries *)

Section RoundTrip.
Context {G : Type} `{GeometryDict G} {python : Interpreter}.
Variable DISPLAY_MODES : list string.

Lemma item_add_user_data (user_data base : gmap string pyval) (key : string) :
  key <> "user_data" ->
  item (add_user_data user_data base) key = item base key.
Proof.
  intros Hkey. unfold item, add_user_data.
  destruct (size user_data); [reflexivity|].
  by rewrite lookup_insert_ne.
Qed.

Lemma read_add_user_data (user_data base : gmap string pyval) :
  base !! "user_data" = None ->
  read_user_data (add_user_data user_data base) = user_data.
Proof.
  intros Hbase. unfold read_user_data, add_user_data.
  destruct (size user_data) eqn:E.
  - rewrite Hbase. symmetry. by apply map_size_empty_inv.
  - by rewrite lookup_insert_eq.
Qed.

Lemma Color_round_trip (c : Color) : Color_from_dict (VDict (Color_to_dict c)) = Ok c.
Proof. by destruct c. Qed.

Lemma line_width_round_trip (w : line_width_slot) :
  stored_line_width w ->
  (if eq_default (line_width_of_value (line_width_to_value w))
   then Ok LineWidthDefault
   else number ← float_positive (line_width_of_value (line_width_to_value w))
                   "line width";
        mret (LineWidth number)) = Ok w.
Proof.
  destruct w as [|number]; [reflexivity|]. cbn. intros Hpos.
  unfold float_positive. cbn. by rewrite Hpos.
Qed.

(** What the setters store is valid. *)
Lemma first_match_canonical (keys : list string) (clean_input : pyval)
    (key : string) :
  first_match keys clean_input = Some key -> canonical keys key.
Proof. apply first_match_again. Qed.

Lemma float_positive_stored (value : pyval) (name : string) (number : float) :
  float_positive value name = Ok number -> stored_line_width (LineWidth number).
Proof.
  unfold float_positive. destruct (py_float value) as [n|]; [|discriminate].
  destruct (0 <? n)%float eqn:E; [|discriminate]. by intros [= <-].
Qed.

Lemma init_mode_canonical (geometry : G) (color : Color) (mode : string) :
  canonical DISPLAY_MODES mode ->
  _SingleColorModeBase2D_init DISPLAY_MODES geometry (VColor color) (VStr mode) =
    Ok {| mode_super :=
            {| color_super := _DisplayBase2D_init geometry; _color := color |};
          _display_mode := mode |}.
Proof.
  intros Hmode. unfold _SingleColorModeBase2D_init, _SingleColorBase2D_init.
  rewrite display_mode_value_str, Hmode. reflexivity.
Qed.

Lemma init_line_canonical (geometry : G) (color : Color)
    (width : line_width_slot) (line_type : string) :
  stored_line_width width -> canonical LINE_TYPES line_type ->
  _LineCurveBase2D_init geometry (VColor color)
    (line_width_of_value (line_width_to_value width)) (VStr line_type) =
    Ok {| line_super :=
            {| color_super := _DisplayBase2D_init geometry; _color := color |};
          _line_width := width;
          _line_type := line_type |}.
Proof.
  intros Hwidth Htype. unfold _LineCurveBase2D_init, _SingleColorBase2D_init.
  unfold mbind at 1 2. cbn [color_value result_bind].
  rewrite (line_width_round_trip _ Hwidth).
  rewrite line_type_value_str, Htype. reflexivity.
Qed.

(** The constructors build valid attributes: what [from_dict] returns, and
    what a caller builds, has a display mode, a line width and a line type
    that the setters have stored. *)
Lemma init_mode_valid (geometry : G) (color display_mode : pyval)
    (self : _SingleColorModeBase2D G) :
  _SingleColorModeBase2D_init DISPLAY_MODES geometry color display_mode = Ok self ->
  canonical DISPLAY_MODES (_display_mode self).
Proof.
  unfold _SingleColorModeBase2D_init, _SingleColorBase2D_init, display_mode_value.
  unfold mbind, mret, result_bind, result_ret.
  destruct (color_value color); [|discriminate].
  destruct (py_lower display_mode) as [clean_input|]; [|discriminate].
  destruct (first_match DISPLAY_MODES clean_input) eqn:E; [|discriminate].
  intros [= <-]. by apply first_match_canonical in E.
Qed.

Lemma init_line_valid (geometry : G) (color line_width line_type : pyval)
    (self : _LineCurveBase2D G) :
  _LineCurveBase2D_init geometry color line_width line_type = Ok self ->
  stored_line_width (_line_width self) /\ canonical LINE_TYPES (_line_type self).
Proof.
  unfold _LineCurveBase2D_init, _SingleColorBase2D_init, line_type_value.
  unfold mbind, mret, result_bind, result_ret.
  destruct (color_value color); [|discriminate].
  destruct (eq_default line_width).
  - destruct (py_lower line_type) as [clean_input|]; [|discriminate].
    destruct (first_match LINE_TYPES clean_input) eqn:E; [|discriminate].
    intros [= <-]. split; [exact I|by apply first_match_canonical in E].
  - destruct (float_positive line_width "line width") as [number|] eqn:Ew;
      [|discriminate].
    destruct (py_lower line_type) as [clean_input|]; [|discriminate].
    destruct (first_match LINE_TYPES clean_input) eqn:E; [|discriminate].
    intros [= <-]. split; [by apply float_positive_stored in Ew
                          |by apply first_match_canonical in E].
Qed.

(** C1: for a valid [DisplayCylinder] or [DisplayPolyline3D] [x], one whose
    attributes are values the setters store and whose geometry the geometry
    library reads back from its own dictionary, [from_dict(x.to_dict())]
    succeeds and its [to_dict()] is [x.to_dict()]. *)
Theorem C1_to_dict_from_dict_round_trip :
  (forall x : DisplayCylinder,
     valid_DisplayCylinder DISPLAY_MODES x ->
     exists y,
       DisplayCylinder_from_dict DISPLAY_MODES (VDict (DisplayCylinder_to_dict x))
         = Ok y
       /\ DisplayCylinder_to_dict y = DisplayCylinder_to_dict x)
  /\ (forall x : DisplayPolyline3D,
        valid_DisplayPolyline3D x ->
        exists y,
          DisplayPolyline3D_from_dict (VDict (DisplayPolyline3D_to_dict x)) = Ok y
          /\ DisplayPolyline3D_to_dict y = DisplayPolyline3D_to_dict x).
Proof.
  split.
  - intros [[[geometry user_data] color] mode] [(geometry' & Hfrom & Hto) Hmode].
    cbn in Hfrom, Hto, Hmode.
    unfold DisplayCylinder_from_dict, DisplayCylinder_to_dict, check_type.
    cbn [as_dict mode_super color_super _geometry _user_data _color _display_mode].
    exists {| mode_super :=
                {| color_super :=
                     {| _geometry := geometry'; _user_data := user_data |};
                   _color := color |};
              _display_mode := mode |}.
    split; [|cbn; by rewrite Hto].
    unfold mbind, result_bind. cbv beta iota.
    rewrite !item_add_user_data by done.
    rewrite read_add_user_data by reflexivity.
    replace (item _ "type") with (Ok (VStr "DisplayCylinder")) by reflexivity.
    replace (item _ "geometry") with (Ok (VDict (geo_to_dict geometry)))
      by reflexivity.
    replace (item _ "color") with (Ok (VDict (Color_to_dict color)))
      by reflexivity.
    replace (item _ "display_mode") with (Ok (VStr mode)) by reflexivity.
    rewrite String.eqb_refl, Hfrom, Color_round_trip.
    by rewrite (init_mode_canonical _ _ _ Hmode).
  - intros [[[geometry user_data] color] width line_type]
      [(geometry' & Hfrom & Hto) [Hwidth Htype]].
    cbn in Hfrom, Hto, Hwidth, Htype.
    unfold DisplayPolyline3D_from_dict, DisplayPolyline3D_to_dict, check_type.
    cbn [as_dict line_super color_super _geometry _user_data _color
           _line_width _line_type].
    exists {| line_super :=
                {| color_super :=
                     {| _geometry := geometry'; _user_data := user_data |};
                   _color := color |};
              _line_width := width;
              _line_type := line_type |}.
    split; [|cbn; by rewrite Hto].
    unfold mbind, result_bind. cbv beta iota.
    rewrite !item_add_user_data by done.
    rewrite read_add_user_data by reflexivity.
    replace (item _ "type") with (Ok (VStr "DisplayPolyline3D")) by reflexivity.
    replace (item _ "geometry") with (Ok (VDict (geo_to_dict geometry)))
      by reflexivity.
    replace (item _ "color") with (Ok (VDict (Color_to_dict color)))
      by reflexivity.
    replace (item _ "line_width") with (Ok (line_width_to_value width))
      by reflexivity.
    replace (item _ "line_type") with (Ok (VStr line_type)) by reflexivity.
    rewrite String.eqb_refl, Hfrom, Color_round_trip.
    by rewrite (init_line_canonical _ _ _ _ Hwidth Htype).
Qed.
End RoundTrip.

(** ** The tests, run *)

Section AtTheTests.
#[local] Existing Instance reading_digits.

Example test_polyline_setters :
  (_SingleColorBase2D_color (VColor blue) (line_super display_square)).1 = Ok tt
  /\ _LineCurveBase2D_line_width (VInt 2) display_square
     = (Ok tt, set_line_width (LineWidth 2) display_square)
  /\ _LineCurveBase2D_line_type (VStr "Dashed")
       (set_line_width (LineWidth 2) display_square)
     = (Ok tt, dashed_square).
Proof. repeat split. Qed.

Example test_cylinder_init :
  _SingleColorModeBase2D_init named_modes cylinder (VColor grey) (VStr "Surface")
    = Ok display_cylinder
  /\ _SingleColorModeBase2D_display_mode named_modes (VStr "Wireframe")
       display_cylinder
     = (Ok tt, set_display_mode "Wireframe" display_cylinder).
Proof. repeat split. Qed.

(** ** The theorems at the objects of the tests *)

Lemma C1_round_trip_of_the_tests :
  (exists y : _SingleColorModeBase2D Cylinder,
     DisplayCylinder_from_dict named_modes
       (VDict (DisplayCylinder_to_dict display_cylinder)) = Ok y
     /\ DisplayCylinder_to_dict y = DisplayCylinder_to_dict display_cylinder)
  /\ (exists y : _LineCurveBase2D Polyline3D,
        DisplayPolyline3D_from_dict (VDict (DisplayPolyline3D_to_dict dashed_square))
          = Ok y
        /\ DisplayPolyline3D_to_dict y = DisplayPolyline3D_to_dict dashed_square).
Proof.
  split.
  - apply (proj1 (C1_to_dict_from_dict_round_trip (G:=Cylinder) named_modes)).
    split; [exists cylinder; split; reflexivity|reflexivity].
  - apply (proj2 (C1_to_dict_from_dict_round_trip (G:=Polyline3D) named_modes)).
    split; [exists square; split; reflexivity|split; reflexivity].
Defined.

Lemma named_modes_NoDup : NoDup (lower <$> named_modes).
Proof. apply (bool_decide_unpack _). vm_compute. exact I. Defined.

Lemma C2_any_casing_of_a_member :
  _LineCurveBase2D_line_type (VStr "DASHED") display_square
    = (Ok tt, set_line_type "Dashed" display_square)
  /\ _SingleColorModeBase2D_display_mode named_modes (VStr "wireFRAME")
       display_cylinder
     = (Ok tt, set_display_mode "Wireframe" display_cylinder)
  /\ _LineCurveBase2D_line_type (VStr "ZigZag") display_square
     = (Raise (ValueError (not_recognized "line_type" (VStr "ZigZag") LINE_TYPES)),
        display_square)
  /\ _line_type (_LineCurveBase2D_line_type (VStr "DASHED") display_square).2
     = "Dashed"
  /\ _display_mode
       (_SingleColorModeBase2D_display_mode named_modes (VStr "wireFRAME")
          display_cylinder).2
     = "Wireframe"
  /\ _line_type (_LineCurveBase2D_line_type (VStr "ZigZag") display_square).2
     = "Continuous".
Proof.
  destruct (C2_enumerated_setters named_modes named_modes_NoDup "DASHED"
              display_square display_cylinder)
    as (Hline & _ & _ & _ & _ & Hline_read & _).
  destruct (C2_enumerated_setters named_modes named_modes_NoDup "wireFRAME"
              display_square display_cylinder)
    as (_ & Hshape & _ & _ & _ & _ & Hshape_read & _).
  destruct (C2_enumerated_setters named_modes named_modes_NoDup "ZigZag"
              display_square display_cylinder)
    as (_ & _ & Hno & _ & _ & _ & _ & Hno_read & _).
  assert (forall key, In key LINE_TYPES -> lower key <> lower "ZigZag") as Hzigzag.
  { intros key Hin. cbn in Hin.
    destruct Hin as [<-|[<-|[<-|[<-|[]]]]]; discriminate. }
  split; [|split; [|split; [|split; [|split]]]].
  - apply (Hline "Dashed"); [cbn; tauto|reflexivity].
  - apply (Hshape "Wireframe"); [cbn; tauto|reflexivity].
  - apply Hno, Hzigzag.
  - apply (Hline_read "Dashed"); [cbn; tauto|reflexivity].
  - apply (Hshape_read "Wireframe"); [cbn; tauto|reflexivity].
  - apply (Hno_read Hzigzag).
Defined.

Lemma C5_an_integer_is_no_colour :
  _SingleColorBase2D_color (VInt 3) (line_super display_square) =
    (Raise (AssertionError
              [Lit "Expected Color for ladybug_display object color. Got ";
               ArgType Tint; Lit "."]),
     line_super display_square)
  /\ _color (_SingleColorBase2D_color (VInt 3) (line_super display_square)).2
     = grey
  /\ _color (_SingleColorBase2D_color VNone (line_super display_square)).2
     = mkColor 0 0 0 255.
Proof.
  destruct (C5_color_setter (line_super display_square) (VInt 3))
    as (_ & _ & Hraise & (_ & Hblack & _) & _ & Hkept).
  split; [|split].
  - apply Hraise; [discriminate|intros c; discriminate].
  - apply Hkept; [discriminate|intros c; discriminate].
  - exact Hblack.
Defined.


Lemma C8_hook_on_two_classes :
  let env := mkClasses {[ "north_angle" := 1%nat ]} {[ "latitude" := 2%nat ]} in
  exists env',
    _extend_ladybug nat 10%nat 20%nat env = (Ok tt, env')
    /\ Compass env' !! "to_vis_set" = Some 10%nat
    /\ Sunpath env' !! "to_vis_set" = Some 20%nat
    /\ Compass env' !! "north_angle" = Some 1%nat
    /\ Sunpath env' !! "latitude" = Some 2%nat.
Proof.
  intros env.
  destruct (C8_extension_hook 10%nat 20%nat env) as (env' & Hrun & Hc & Hs & Hrest).
  exists env'. split; [exact Hrun|]. split; [exact Hc|]. split; [exact Hs|].
  split.
  - rewrite (proj1 (Hrest "north_angle" ltac:(discriminate))). reflexivity.
  - rewrite (proj2 (Hrest "latitude" ltac:(discriminate))). reflexivity.
Defined.

Lemma C9_a_failed_call_changes_nothing :
  (_LineCurveBase2D_line_type (VStr "ZigZag") dashed_square).2 = dashed_square
  /\ (_LineCurveBase2D_line_width (VInt (-1)) dashed_square).2 = dashed_square
  /\ (as_line (_SingleColorBase2D_color (VStr "red")) dashed_square).2
     = dashed_square
  /\ (_SingleColorModeBase2D_display_mode named_modes (VInt 1) display_cylinder).2
     = display_cylinder.
Proof.
  split; [|split; [|split]].
  - eapply (proj2 (proj2 (proj2 (proj2 (proj2
              (C9_setters_atomic (G:=Polyline3D) named_modes (VStr "ZigZag") _)))))
              dashed_square).
    reflexivity.
  - eapply (proj1 (proj2 (proj2 (proj2 (proj2
              (C9_setters_atomic (G:=Polyline3D) named_modes (VInt (-1)) _)))))
              dashed_square).
    reflexivity.
  - eapply (proj1 (proj2 (proj2
              (C9_setters_atomic (G:=Polyline3D) named_modes (VStr "red") _)))
              dashed_square).
    reflexivity.
  - eapply (proj1 (proj2 (proj2 (proj2
              (C9_setters_atomic (G:=Cylinder) named_modes (VInt 1) _))))
              display_cylinder).
    reflexivity.
Defined.

Lemma C10_none_and_bytes :
  _LineCurveBase2D_line_type VNone dashed_square
    = (Raise (AttributeError TNoneType "lower"), dashed_square)
  /\ _SingleColorModeBase2D_display_mode named_modes (VInt 7) display_cylinder
     = (Raise (AttributeError Tint "lower"), display_cylinder)
  /\ _LineCurveBase2D_line_type (VBytes "dashed") dashed_square
     = (Raise (ValueError (not_recognized "line_type" (VBytes "dashed") LINE_TYPES)),
        dashed_square).
Proof.
  split; [|split].
  - apply (proj2 (proj2 (C10_errors_by_input named_modes VNone dashed_square
                           display_cylinder))); intros s; discriminate.
  - apply (proj2 (proj2 (C10_errors_by_input named_modes (VInt 7) dashed_square
                           display_cylinder))); intros s; discriminate.
  - apply (proj1 (C10_errors_by_input named_modes (VBytes "dashed") dashed_square
                    display_cylinder)).
    split; [reflexivity|]. right. by exists "dashed".
Defined.

(** ** Where the specification says more than the code does *)

(** C10 as it is stated fails on [bytes]: [b'dashed'] is no string, it has a
    [lower] method, it equals no member of [LINE_TYPES], and the [line_type]
    setter raises for it the [ValueError] that lists the valid members.  So
    the [ValueError] is not raised for strings only, and a non-string input
    does not always fail on [value.lower()]. *)
Lemma C10_bytes_reach_the_ValueError :
  is_str (VBytes "dashed") = false
  /\ _LineCurveBase2D_line_type (VBytes "dashed") dashed_square
     = (Raise (ValueError (not_recognized "line_type" (VBytes "dashed") LINE_TYPES)),
        dashed_square)
  /\ ~ (forall (value : pyval) (self : _LineCurveBase2D Polyline3D) (m : message),
          _LineCurveBase2D_line_type value self = (Raise (ValueError m), self) ->
          is_str value = true)
  /\ ~ (forall (value : pyval) (self : _LineCurveBase2D Polyline3D),
          is_str value = false ->
          exists e, _LineCurveBase2D_line_type value self = (Raise e, self)
                    /\ is_ValueError e = false).
Proof.
  split; [reflexivity|]. split; [reflexivity|]. split.
  - intros Hall.
    specialize (Hall (VBytes "dashed") dashed_square _ eq_refl). discriminate.
  - intros Hall.
    destruct (Hall (VBytes "dashed") dashed_square eq_refl) as (e & Hrun & He).
    injection Hrun as <-. discriminate.
Qed.

End AtTheTests.

(** * Further properties of [geometry2d/_base.py] *)

(** ** What a call of each setter returns *)

Section Runs.
Context {G : Type} {python : Interpreter}.
Variable DISPLAY_MODES : list string.

Lemma run_color (value : pyval) (self : _SingleColorBase2D G) :
  _SingleColorBase2D_color value self =
    match color_value value with
    | Ok c => (Ok tt, set_color c self)
    | Raise e => (Raise e, self)
    end.
Proof. unfold _SingleColorBase2D_color. run. by destruct (color_value value). Qed.

Lemma run_color_mode (value : pyval) (self : _SingleColorModeBase2D G) :
  as_mode (_SingleColorBase2D_color value) self =
    match color_value value with
    | Ok c => (Ok tt, set_mode_super (set_color c (mode_super self)) self)
    | Raise e => (Raise e, self)
    end.
Proof.
  unfold as_mode, inherited. rewrite run_color.
  destruct (color_value value); [reflexivity|by rewrite set_mode_super_same].
Qed.

Lemma run_color_line (value : pyval) (self : _LineCurveBase2D G) :
  as_line (_SingleColorBase2D_color value) self =
    match color_value value with
    | Ok c => (Ok tt, set_line_super (set_color c (line_super self)) self)
    | Raise e => (Raise e, self)
    end.
Proof.
  unfold as_line, inherited. rewrite run_color.
  destruct (color_value value); [reflexivity|by rewrite set_line_super_same].
Qed.

Lemma run_display_mode (value : pyval) (self : _SingleColorModeBase2D G) :
  _SingleColorModeBase2D_display_mode DISPLAY_MODES value self =
    match display_mode_value DISPLAY_MODES value with
    | Ok key => (Ok tt, set_display_mode key self)
    | Raise e => (Raise e, self)
    end.
Proof.
  unfold _SingleColorModeBase2D_display_mode. run.
  by destruct (display_mode_value DISPLAY_MODES value).
Qed.

Lemma run_line_type (value : pyval) (self : _LineCurveBase2D G) :
  _LineCurveBase2D_line_type value self =
    match line_type_value value with
    | Ok key => (Ok tt, set_line_type key self)
    | Raise e => (Raise e, self)
    end.
Proof.
  unfold _LineCurveBase2D_line_type. run. by destruct (line_type_value value).
Qed.

(** What the [line_width] setter is about to store, or its exception. *)
Lemma run_line_width (value : pyval) (self : _LineCurveBase2D G) :
  _LineCurveBase2D_line_width value self =
    match (if eq_default value then Ok LineWidthDefault
           else number ← float_positive value "line width";
                mret (LineWidth number)) with
    | Ok width => (Ok tt, set_line_width width self)
    | Raise e => (Raise e, self)
    end.
Proof.
  unfold _LineCurveBase2D_line_width. destruct (eq_default value); [reflexivity|].
  run. by destruct (float_positive value "line width").
Qed.
End Runs.

(** ** One slot per setter *)

Ltac binds := unfold mbind, mret, Py_bind, Py_ret, result_bind, result_ret.

Section SetterSlots.
Context {G : Type} {python : Interpreter}.
Variable DISPLAY_MODES : list string.

(** X2: a setter call, whether it succeeds or raises, leaves every slot but
    its own as it was: the geometry and [user_data] always, and the other
    display attributes of the wrapper. *)
Theorem setters_touch_one_slot (value : pyval) :
  (forall self : _SingleColorBase2D G,
     color_super (_SingleColorBase2D_color value self).2 = color_super self)
  /\ (forall self : _SingleColorModeBase2D G,
        let self' := (as_mode (_SingleColorBase2D_color value) self).2 in
        mode_base self' = mode_base self
        /\ _display_mode self' = _display_mode self)
  /\ (forall self : _SingleColorModeBase2D G,
        mode_super (_SingleColorModeBase2D_display_mode DISPLAY_MODES value self).2
          = mode_super self)
  /\ (forall self : _LineCurveBase2D G,
        let self' := (as_line (_SingleColorBase2D_color value) self).2 in
        line_base self' = line_base self
        /\ _line_width self' = _line_width self
        /\ _line_type self' = _line_type self)
  /\ (forall self : _LineCurveBase2D G,
        let self' := (_LineCurveBase2D_line_width value self).2 in
        line_super self' = line_super self
        /\ _line_type self' = _line_type self)
  /\ (forall self : _LineCurveBase2D G,
        let self' := (_LineCurveBase2D_line_type value self).2 in
        line_super self' = line_super self
        /\ _line_width self' = _line_width self).
Proof.
  split; [|split; [|split; [|split; [|split]]]]; intros self; cbv zeta.
  - rewrite run_color. by destruct (color_value value).
  - rewrite run_color_mode. by destruct (color_value value).
  - rewrite run_display_mode.
    by destruct (display_mode_value DISPLAY_MODES value).
  - rewrite run_color_line. by destruct (color_value value).
  - rewrite run_line_width. destruct (eq_default value); [done|].
    binds. by destruct (float_positive value "line width").
  - rewrite run_line_type. by destruct (line_type_value value).
Qed.

Lemma run_transform_line `{Geometry G} (math_radians : float -> float)
    (t : transform G) (self : _LineCurveBase2D G) :
  as_line (as_color (call math_radians t)) self =
    (Ok tt,
     set_line_super
       (set_color_super
          (set_geometry (expected_geometry math_radians t (_geometry (line_base self)))
             (line_base self))
          (line_super self))
       self).
Proof. by destruct t. Qed.

Lemma run_transform_mode `{Geometry G} (math_radians : float -> float)
    (t : transform G) (self : _SingleColorModeBase2D G) :
  as_mode (as_color (call math_radians t)) self =
    (Ok tt,
     set_mode_super
       (set_color_super
          (set_geometry (expected_geometry math_radians t (_geometry (mode_base self)))
             (mode_base self))
          (mode_super self))
       self).
Proof. by destruct t. Qed.

(** X3: two setters of different attributes that both succeed leave the same
    wrapper whichever is called first, and a setter that succeeds commutes
    with a transform. *)
Theorem successful_setters_commute `{Geometry G} (math_radians : float -> float)
    (color width type mode : pyval) (t : transform G) :
  (forall self : _LineCurveBase2D G,
     (as_line (_SingleColorBase2D_color color) self).1 = Ok tt ->
     (_LineCurveBase2D_line_width width self).1 = Ok tt ->
     (as_line (_SingleColorBase2D_color color);; _LineCurveBase2D_line_width width)
       self
     = (_LineCurveBase2D_line_width width;; as_line (_SingleColorBase2D_color color))
         self)
  /\ (forall self : _LineCurveBase2D G,
        (as_line (_SingleColorBase2D_color color) self).1 = Ok tt ->
        (_LineCurveBase2D_line_type type self).1 = Ok tt ->
        (as_line (_SingleColorBase2D_color color);; _LineCurveBase2D_line_type type)
          self
        = (_LineCurveBase2D_line_type type;; as_line (_SingleColorBase2D_color color))
            self)
  /\ (forall self : _LineCurveBase2D G,
        (_LineCurveBase2D_line_width width self).1 = Ok tt ->
        (_LineCurveBase2D_line_type type self).1 = Ok tt ->
        (_LineCurveBase2D_line_width width;; _LineCurveBase2D_line_type type) self
        = (_LineCurveBase2D_line_type type;; _LineCurveBase2D_line_width width) self)
  /\ (forall self : _LineCurveBase2D G,
        (_LineCurveBase2D_line_type type self).1 = Ok tt ->
        (as_line (as_color (call math_radians t));; _LineCurveBase2D_line_type type)
          self
        = (_LineCurveBase2D_line_type type;; as_line (as_color (call math_radians t)))
            self)
  /\ (forall self : _SingleColorModeBase2D G,
        (as_mode (_SingleColorBase2D_color color) self).1 = Ok tt ->
        (_SingleColorModeBase2D_display_mode DISPLAY_MODES mode self).1 = Ok tt ->
        (as_mode (_SingleColorBase2D_color color);;
         _SingleColorModeBase2D_display_mode DISPLAY_MODES mode) self
        = (_SingleColorModeBase2D_display_mode DISPLAY_MODES mode;;
           as_mode (_SingleColorBase2D_color color)) self)
  /\ (forall self : _SingleColorModeBase2D G,
        (_SingleColorModeBase2D_display_mode DISPLAY_MODES mode self).1 = Ok tt ->
        (as_mode (as_color (call math_radians t));;
         _SingleColorModeBase2D_display_mode DISPLAY_MODES mode) self
        = (_SingleColorModeBase2D_display_mode DISPLAY_MODES mode;;
           as_mode (as_color (call math_radians t))) self).
Proof.
  split; [|split; [|split; [|split; [|split]]]]; intros self; binds.
  - rewrite !run_color_line, !run_line_width.
    destruct (color_value color) eqn:Ec; [|cbn; discriminate].
    destruct (if eq_default width then _ else _) eqn:Ew; [|cbn; discriminate].
    intros _ _. by rewrite run_color_line, run_line_width, Ec, Ew.
  - rewrite !run_color_line, !run_line_type.
    destruct (color_value color) eqn:Ec; [|cbn; discriminate].
    destruct (line_type_value type) eqn:Et; [|cbn; discriminate].
    intros _ _. by rewrite run_color_line, run_line_type, Ec, Et.
  - rewrite !run_line_width, !run_line_type.
    destruct (if eq_default width then _ else _) eqn:Ew; [|cbn; discriminate].
    destruct (line_type_value type) eqn:Et; [|cbn; discriminate].
    intros _ _. by rewrite run_line_width, run_line_type, Ew, Et.
  - rewrite !run_transform_line, !run_line_type.
    destruct (line_type_value type) eqn:Et; [|cbn; discriminate].
    intros _. cbv beta iota. by rewrite ?run_transform_line, ?run_line_type, ?Et.
  - rewrite !run_color_mode, !run_display_mode.
    destruct (color_value color) eqn:Ec; [|cbn; discriminate].
    destruct (display_mode_value DISPLAY_MODES mode) eqn:Em; [|cbn; discriminate].
    intros _ _. by rewrite run_color_mode, run_display_mode, Ec, Em.
  - rewrite !run_transform_mode, !run_display_mode.
    destruct (display_mode_value DISPLAY_MODES mode) eqn:Em; [|cbn; discriminate].
    intros _. cbv beta iota.
    by rewrite ?run_transform_mode, ?run_display_mode, ?Em.
Qed.
End SetterSlots.

(** ** Setting twice, and writing back what was read *)

Section SetTwice.
Context {G : Type} {python : Interpreter}.
Variable DISPLAY_MODES : list string.

(** X4: the outcome of a setter call does not depend on what an earlier call
    of the same setter has stored, and when the second of two calls succeeds
    the wrapper is the one the second call alone would leave: the last write
    wins. *)
Theorem last_write_wins (first second : pyval) :
  (forall self : _SingleColorBase2D G,
     (_SingleColorBase2D_color first self).1 = Ok tt ->
     ((_SingleColorBase2D_color first;; _SingleColorBase2D_color second) self).1
       = (_SingleColorBase2D_color second self).1
     /\ ((_SingleColorBase2D_color second self).1 = Ok tt ->
         (_SingleColorBase2D_color first;; _SingleColorBase2D_color second) self
           = _SingleColorBase2D_color second self))
  /\ (forall self : _SingleColorModeBase2D G,
        (_SingleColorModeBase2D_display_mode DISPLAY_MODES first self).1 = Ok tt ->
        ((_SingleColorModeBase2D_display_mode DISPLAY_MODES first;;
          _SingleColorModeBase2D_display_mode DISPLAY_MODES second) self).1
          = (_SingleColorModeBase2D_display_mode DISPLAY_MODES second self).1
        /\ ((_SingleColorModeBase2D_display_mode DISPLAY_MODES second self).1 = Ok tt ->
            (_SingleColorModeBase2D_display_mode DISPLAY_MODES first;;
             _SingleColorModeBase2D_display_mode DISPLAY_MODES second) self
              = _SingleColorModeBase2D_display_mode DISPLAY_MODES second self))
  /\ (forall self : _LineCurveBase2D G,
        (_LineCurveBase2D_line_width first self).1 = Ok tt ->
        ((_LineCurveBase2D_line_width first;; _LineCurveBase2D_line_width second)
           self).1
          = (_LineCurveBase2D_line_width second self).1
        /\ ((_LineCurveBase2D_line_width second self).1 = Ok tt ->
            (_LineCurveBase2D_line_width first;; _LineCurveBase2D_line_width second)
              self
              = _LineCurveBase2D_line_width second self))
  /\ (forall self : _LineCurveBase2D G,
        (_LineCurveBase2D_line_type first self).1 = Ok tt ->
        ((_LineCurveBase2D_line_type first;; _LineCurveBase2D_line_type second)
           self).1
          = (_LineCurveBase2D_line_type second self).1
        /\ ((_LineCurveBase2D_line_type second self).1 = Ok tt ->
            (_LineCurveBase2D_line_type first;; _LineCurveBase2D_line_type second)
              self
              = _LineCurveBase2D_line_type second self)).
Proof.
  split; [|split; [|split]]; intros self; binds.
  - rewrite !run_color.
    destruct (color_value first); [|cbn; discriminate]. intros _.
    cbv beta iota. rewrite run_color.
    destruct (color_value second); [|done]. done.
  - rewrite !run_display_mode.
    destruct (display_mode_value DISPLAY_MODES first); [|cbn; discriminate].
    intros _. cbv beta iota. rewrite run_display_mode.
    destruct (display_mode_value DISPLAY_MODES second); [|done]. done.
  - rewrite !run_line_width.
    destruct (if eq_default first then _ else _); [|cbn; discriminate].
    intros _. cbv beta iota. rewrite run_line_width.
    destruct (if eq_default second then _ else _); [|done]. done.
  - rewrite !run_line_type.
    destruct (line_type_value first); [|cbn; discriminate].
    intros _. cbv beta iota. rewrite run_line_type.
    destruct (line_type_value second); [|done]. done.
Qed.

(** X5: assigning to an attribute the value just read from it changes
    nothing: [x.color = x.color] on any wrapper, and [x.line_type =
    x.line_type] or [x.display_mode = x.display_mode] once the setter has
    stored the attribute, whatever the spelling it was given. *)
Theorem writing_back_changes_nothing (value : pyval) :
  (forall self : _SingleColorBase2D G,
     _SingleColorBase2D_color (VColor (_color self)) self = (Ok tt, self))
  /\ (forall self self' : _SingleColorModeBase2D G,
        _SingleColorModeBase2D_display_mode DISPLAY_MODES value self = (Ok tt, self') ->
        _SingleColorModeBase2D_display_mode DISPLAY_MODES
          (VStr (_display_mode self')) self' = (Ok tt, self'))
  /\ (forall self self' : _LineCurveBase2D G,
        _LineCurveBase2D_line_type value self = (Ok tt, self') ->
        _LineCurveBase2D_line_type (VStr (_line_type self')) self' = (Ok tt, self')).
Proof.
  split; [|split].
  - by intros [base c].
  - intros self self'. rewrite !run_display_mode.
    unfold display_mode_value at 1. binds.
    destruct (py_lower value) as [clean_input|]; [|discriminate].
    destruct (first_match DISPLAY_MODES clean_input) as [key|] eqn:E; [|discriminate].
    intros [= <-]. rewrite display_mode_value_str. cbn [_display_mode set_display_mode].
    rewrite (first_match_again _ _ _ E). by destruct self.
  - intros self self'. rewrite !run_line_type.
    unfold line_type_value at 1. binds.
    destruct (py_lower value) as [clean_input|]; [|discriminate].
    destruct (first_match LINE_TYPES clean_input) as [key|] eqn:E; [|discriminate].
    intros [= <-]. rewrite line_type_value_str. cbn [_line_type set_line_type].
    rewrite (first_match_again _ _ _ E). by destruct self.
Qed.
End SetTwice.

(** ** Which member an enumerated setter stores *)

Lemma first_match_split (keys : list string) (s key : string) :
  first_match keys (VStr s) = Some key <->
  exists pre post,
    keys = pre ++ key :: post
    /\ lower key = s
    /\ forall k, In k pre -> lower k <> s.
Proof.
  induction keys as [|k keys IH]; cbn.
  - split; [discriminate|]. intros (pre & post & Hkeys & _).
    by destruct pre.
  - destruct (String.eqb (lower k) s) eqn:E.
    + apply String.eqb_eq in E. split.
      * intros [= <-]. exists [], keys. repeat split; [done|]. intros ? [].
      * intros (pre & post & Hkeys & Hkey & Hpre).
        destruct pre as [|k' pre]; cbn in Hkeys.
        -- by injection Hkeys as -> _.
        -- injection Hkeys as <- _. destruct (Hpre k); [by left|done].
    + apply String.eqb_neq in E. rewrite IH. split.
      * intros (pre & post & -> & Hkey & Hpre). exists (k :: pre), post.
        repeat split; [done|]. intros k' [<-|Hin]; [done|by apply Hpre].
      * intros (pre & post & Hkeys & Hkey & Hpre).
        destruct pre as [|k' pre]; cbn in Hkeys.
        -- injection Hkeys as -> _. done.
        -- injection Hkeys as <- ->. exists pre, post.
           repeat split; [done|]. intros k' Hin. apply Hpre. by right.
Qed.

Section FirstMember.
Context {G : Type} {python : Interpreter}.
Variable DISPLAY_MODES : list string.

(** X6: whatever ASCII texts the tuple [DISPLAY_MODES] holds, with or without
    members that differ in case only, the [display_mode] setter succeeds on
    an ASCII string exactly when a member equals it up to case; the display
    mode read from the wrapper afterwards is the first such member in the
    order of the tuple, and the colour, geometry and [user_data] are what
    they were.  When no member equals it the call raises a [ValueError] and
    the display mode is what it was. *)
Theorem display_mode_stores_first_member (s : string)
    (self self' : _SingleColorModeBase2D G) :
  isascii s = true ->
  forallb isascii DISPLAY_MODES = true ->
  (_SingleColorModeBase2D_display_mode DISPLAY_MODES (VStr s) self = (Ok tt, self')
   <->
   exists pre key post,
     DISPLAY_MODES = pre ++ key :: post
     /\ lower key = lower s
     /\ (forall k, In k pre -> lower k <> lower s)
     /\ self' = set_display_mode key self)
  /\ (forall pre key post,
        DISPLAY_MODES = pre ++ key :: post ->
        lower key = lower s ->
        (forall k, In k pre -> lower k <> lower s) ->
        (_SingleColorModeBase2D_display_mode DISPLAY_MODES (VStr s) self).1
          = Ok tt
        /\ _display_mode
             (_SingleColorModeBase2D_display_mode DISPLAY_MODES (VStr s) self).2
           = key
        /\ mode_super
             (_SingleColorModeBase2D_display_mode DISPLAY_MODES (VStr s) self).2
           = mode_super self)
  /\ ((forall k, In k DISPLAY_MODES -> lower k <> lower s) ->
      (exists m,
         (_SingleColorModeBase2D_display_mode DISPLAY_MODES (VStr s) self).1
           = Raise (ValueError m))
      /\ _display_mode
           (_SingleColorModeBase2D_display_mode DISPLAY_MODES (VStr s) self).2
         = _display_mode self).
Proof.
  intros _ _. rewrite run_display_mode, display_mode_value_str.
  split; [split|split].
  - destruct (first_match DISPLAY_MODES (VStr (lower s))) as [key|] eqn:E;
      [|discriminate].
    intros [= <-]. apply first_match_split in E as (pre & post & ? & ? & ?).
    by exists pre, key, post.
  - intros (pre & key & post & Hkeys & Hkey & Hpre & ->).
    assert (first_match DISPLAY_MODES (VStr (lower s)) = Some key) as ->; [|done].
    apply first_match_split. by exists pre, post.
  - intros pre key post Hkeys Hkey Hpre.
    assert (first_match DISPLAY_MODES (VStr (lower s)) = Some key) as ->.
    { apply first_match_split. by exists pre, post. }
    by repeat split.
  - intros Hno.
    assert (first_match DISPLAY_MODES (VStr (lower s)) = None) as ->.
    { apply first_match_None. intros k Hin.
      destruct (lower_eqb k (VStr (lower s))) eqn:E; [|reflexivity].
      apply lower_eqb_str in E. by destruct (Hno k Hin). }
    split; [by eexists|reflexivity].
Qed.

(** X7: the [line_type] setter accepts a string exactly when its lower case
    is [continuous], [dashed], [dotted] or [dashdot]; the line type read from
    the wrapper afterwards is then the member spelled [Continuous], [Dashed],
    [Dotted] or [DashDot], and otherwise the one it was; the input is not
    trimmed, so the empty string and a string that starts with a blank are
    rejected with the [ValueError]. *)
Theorem line_type_accepts_four_spellings (s : string) (self : _LineCurveBase2D G) :
  _LineCurveBase2D_line_type (VStr s) self =
    (if String.eqb "continuous" (lower s)
     then (Ok tt, set_line_type "Continuous" self)
     else if String.eqb "dashed" (lower s)
     then (Ok tt, set_line_type "Dashed" self)
     else if String.eqb "dotted" (lower s)
     then (Ok tt, set_line_type "Dotted" self)
     else if String.eqb "dashdot" (lower s)
     then (Ok tt, set_line_type "DashDot" self)
     else (Raise (ValueError (not_recognized "line_type" (VStr s) LINE_TYPES)),
           self))
  /\ _LineCurveBase2D_line_type (VStr "") self =
       (Raise (ValueError (not_recognized "line_type" (VStr "") LINE_TYPES)), self)
  /\ _LineCurveBase2D_line_type (VStr (String " " s)) self =
       (Raise (ValueError
                 (not_recognized "line_type" (VStr (String " " s)) LINE_TYPES)),
        self)
  /\ _line_type (_LineCurveBase2D_line_type (VStr s) self).2 =
       (if String.eqb "continuous" (lower s) then "Continuous"
        else if String.eqb "dashed" (lower s) then "Dashed"
        else if String.eqb "dotted" (lower s) then "Dotted"
        else if String.eqb "dashdot" (lower s) then "DashDot"
        else _line_type self)
  /\ (_LineCurveBase2D_line_type (VStr s) self).1 =
       (if String.eqb "continuous" (lower s) then Ok tt
        else if String.eqb "dashed" (lower s) then Ok tt
        else if String.eqb "dotted" (lower s) then Ok tt
        else if String.eqb "dashdot" (lower s) then Ok tt
        else Raise (ValueError (not_recognized "line_type" (VStr s) LINE_TYPES)))
  /\ _line_width (_LineCurveBase2D_line_type (VStr s) self).2 = _line_width self
  /\ line_super (_LineCurveBase2D_line_type (VStr s) self).2 = line_super self
  /\ _line_type (_LineCurveBase2D_line_type (VStr "") self).2 = _line_type self
  /\ _line_type (_LineCurveBase2D_line_type (VStr (String " " s)) self).2
     = _line_type self.
Proof.
  assert (_LineCurveBase2D_line_type (VStr s) self =
    (if String.eqb "continuous" (lower s)
     then (Ok tt, set_line_type "Continuous" self)
     else if String.eqb "dashed" (lower s)
     then (Ok tt, set_line_type "Dashed" self)
     else if String.eqb "dotted" (lower s)
     then (Ok tt, set_line_type "Dotted" self)
     else if String.eqb "dashdot" (lower s)
     then (Ok tt, set_line_type "DashDot" self)
     else (Raise (ValueError (not_recognized "line_type" (VStr s) LINE_TYPES)),
           self))) as Hrun.
  { rewrite run_line_type, line_type_value_str. unfold LINE_TYPES.
    cbn [first_match lower_eqb].
    change (lower "Continuous") with "continuous".
    change (lower "Dashed") with "dashed".
    change (lower "Dotted") with "dotted".
    change (lower "DashDot") with "dashdot".
    by repeat destruct (String.eqb _ (lower s)). }
  split; [exact Hrun|]. split; [reflexivity|]. split; [reflexivity|].
  rewrite Hrun.
  repeat split; try reflexivity;
    by repeat destruct (String.eqb _ (lower s)).
Qed.
End FirstMember.

(** ** The enumerated attributes stay members of their tuples *)

Section Listed.
Context {G : Type} `{Geometry G} {python : Interpreter}.
Variable math_radians : float -> float.
Variable DISPLAY_MODES : list string.

Lemma line_type_value_listed (value : pyval) (key : string) :
  line_type_value value = Ok key -> In key LINE_TYPES.
Proof.
  unfold line_type_value. binds.
  destruct (py_lower value) as [clean_input|]; [|discriminate].
  destruct (first_match LINE_TYPES clean_input) eqn:E; [|discriminate].
  intros [= <-]. by apply first_match_Some in E as [? _].
Qed.

Lemma display_mode_value_listed (value : pyval) (key : string) :
  display_mode_value DISPLAY_MODES value = Ok key -> In key DISPLAY_MODES.
Proof.
  unfold display_mode_value. binds.
  destruct (py_lower value) as [clean_input|]; [|discriminate].
  destruct (first_match DISPLAY_MODES clean_input) eqn:E; [|discriminate].
  intros [= <-]. by apply first_match_Some in E as [? _].
Qed.

(** X8: [line_type] is always one of [LINE_TYPES] and [display_mode] one of
    [DISPLAY_MODES]: the constructors leave it so, and on a wrapper where it
    holds it still holds after any setter call, successful or failed, after
    any transform, and after [_transfer_attributes] from a wrapper where it
    holds. *)
Theorem enumerated_attributes_stay_listed (value : pyval) (t : transform G) :
  (forall geometry color line_width line_type (self : _LineCurveBase2D G),
     _LineCurveBase2D_init geometry color line_width line_type = Ok self ->
     line_type_listed self)
  /\ (forall geometry color display_mode (self : _SingleColorModeBase2D G),
        _SingleColorModeBase2D_init DISPLAY_MODES geometry color display_mode
          = Ok self ->
        display_mode_listed DISPLAY_MODES self)
  /\ (forall self other : _LineCurveBase2D G,
        line_type_listed self ->
        line_type_listed (as_line (_SingleColorBase2D_color value) self).2
        /\ line_type_listed (_LineCurveBase2D_line_width value self).2
        /\ line_type_listed (_LineCurveBase2D_line_type value self).2
        /\ line_type_listed (as_line (as_color (call math_radians t)) self).2
        /\ (line_type_listed other ->
            line_type_listed (_LineCurveBase2D_transfer_attributes other self).2))
  /\ (forall self other : _SingleColorModeBase2D G,
        display_mode_listed DISPLAY_MODES self ->
        display_mode_listed DISPLAY_MODES
          (as_mode (_SingleColorBase2D_color value) self).2
        /\ display_mode_listed DISPLAY_MODES
             (_SingleColorModeBase2D_display_mode DISPLAY_MODES value self).2
        /\ display_mode_listed DISPLAY_MODES
             (as_mode (as_color (call math_radians t)) self).2
        /\ (display_mode_listed DISPLAY_MODES other ->
            display_mode_listed DISPLAY_MODES
              (_SingleColorModeBase2D_transfer_attributes other self).2)).
Proof.
  unfold line_type_listed, display_mode_listed.
  split; [|split; [|split]].
  - intros geometry color line_width line_type self.
    unfold _LineCurveBase2D_init. binds.
    destruct (_SingleColorBase2D_init geometry color); [|discriminate].
    destruct (if eq_default line_width then _ else _); [|discriminate].
    destruct (line_type_value line_type) eqn:E; [|discriminate].
    intros [= <-]. by apply line_type_value_listed in E.
  - intros geometry color display_mode self.
    unfold _SingleColorModeBase2D_init. binds.
    destruct (_SingleColorBase2D_init geometry color); [|discriminate].
    destruct (display_mode_value DISPLAY_MODES display_mode) eqn:E; [|discriminate].
    intros [= <-]. by apply display_mode_value_listed in E.
  - intros self other Hself. repeat split.
    + rewrite run_color_line. by destruct (color_value value).
    + rewrite run_line_width. by destruct (if eq_default value then _ else _).
    + rewrite run_line_type. destruct (line_type_value value) eqn:E; [|done].
      by apply line_type_value_listed in E.
    + by rewrite run_transform_line.
    + done.
  - intros self other Hself. repeat split.
    + rewrite run_color_mode. by destruct (color_value value).
    + rewrite run_display_mode.
      destruct (display_mode_value DISPLAY_MODES value) eqn:E; [|done].
      by apply display_mode_value_listed in E.
    + by rewrite run_transform_mode.
    + done.
Qed.
End Listed.

(** ** Transforms in sequence *)

Section TransformSequences.
Context {G : Type} `{Geometry G} {python : Interpreter}.
Variable math_radians : float -> float.

Lemma run_calls (ts : list (transform G)) (self : _DisplayBase2D G) :
  calls math_radians ts self =
    (Ok tt, set_geometry (expected_geometries math_radians ts (_geometry self)) self).
Proof.
  revert self. induction ts as [|t ts IH]; intros [geometry user_data].
  - reflexivity.
  - cbn [calls]. binds.
    replace (call math_radians t {| _geometry := geometry; _user_data := user_data |})
      with (Ok tt, {| _geometry := expected_geometry math_radians t geometry;
                      _user_data := user_data |}) by (by destruct t).
    cbv beta iota. by rewrite IH.
Qed.

(** X9: any sequence of transforms on a wrapper succeeds and leaves the
    geometry that the geometry library's operations give when applied in
    the same order, every display attribute and [user_data] being as before;
    calling the transforms of two lists one after the other is calling
    those of the concatenated list. *)
Theorem transforms_in_sequence (first second : list (transform G)) :
  (forall self : _DisplayBase2D G,
     calls math_radians first self =
       (Ok tt,
        {| _geometry := expected_geometries math_radians first (_geometry self);
           _user_data := _user_data self |}))
  /\ (forall self : _SingleColorModeBase2D G,
        as_mode (as_color (calls math_radians first)) self =
          (Ok tt,
           {| mode_super :=
                {| color_super :=
                     {| _geometry := expected_geometries math_radians first
                                       (_geometry (mode_base self));
                        _user_data := _user_data (mode_base self) |};
                   _color := _color (mode_super self) |};
              _display_mode := _display_mode self |}))
  /\ (forall self : _LineCurveBase2D G,
        as_line (as_color (calls math_radians first)) self =
          (Ok tt,
           {| line_super :=
                {| color_super :=
                     {| _geometry := expected_geometries math_radians first
                                       (_geometry (line_base self));
                        _user_data := _user_data (line_base self) |};
                   _color := _color (line_super self) |};
              _line_width := _line_width self;
              _line_type := _line_type self |}))
  /\ (forall self : _DisplayBase2D G,
        (calls math_radians first;; calls math_radians second) self
          = calls math_radians (first ++ second) self).
Proof.
  split; [|split; [|split]]; intros self.
  - by rewrite run_calls.
  - unfold as_mode, as_color, inherited. cbv beta. by rewrite run_calls.
  - unfold as_line, as_color, inherited. cbv beta. by rewrite run_calls.
  - binds. rewrite !run_calls. cbv beta iota. rewrite ?run_calls.
    unfold expected_geometries. rewrite foldl_app. by destruct self.
Qed.
End TransformSequences.

(** ** What [_transfer_attributes] leaves alone *)

Section TransferFrame.
Context {G : Type} `{Geometry G} {python : Interpreter}.
Variable math_radians : float -> float.

(** X10: [_transfer_attributes] succeeds whatever the source and the target
    are, and never touches the geometry nor [user_data] of the target; it
    overwrites every display attribute, so the attributes the target had do
    not matter; transferring from the same source twice is transferring
    once, and transferring a wrapper's attributes to itself changes
    nothing. *)
Theorem transfer_leaves_geometry_and_user_data :
  (forall source target target2 : _SingleColorBase2D G,
     (_SingleColorBase2D_transfer_attributes source target).1 = Ok tt
     /\ color_super (_SingleColorBase2D_transfer_attributes source target).2
       = color_super target
     /\ _SingleColorBase2D_transfer_attributes target target = (Ok tt, target)
     /\ (_SingleColorBase2D_transfer_attributes source;;
         _SingleColorBase2D_transfer_attributes source) target
        = _SingleColorBase2D_transfer_attributes source target
     /\ (color_super target2 = color_super target ->
         _SingleColorBase2D_transfer_attributes source target2
           = _SingleColorBase2D_transfer_attributes source target))
  /\ (forall source target target2 : _SingleColorModeBase2D G,
        (_SingleColorModeBase2D_transfer_attributes source target).1 = Ok tt
        /\ mode_base (_SingleColorModeBase2D_transfer_attributes source target).2
          = mode_base target
        /\ _SingleColorModeBase2D_transfer_attributes target target = (Ok tt, target)
        /\ (_SingleColorModeBase2D_transfer_attributes source;;
            _SingleColorModeBase2D_transfer_attributes source) target
           = _SingleColorModeBase2D_transfer_attributes source target
        /\ (mode_base target2 = mode_base target ->
            _SingleColorModeBase2D_transfer_attributes source target2
              = _SingleColorModeBase2D_transfer_attributes source target))
  /\ (forall source target target2 : _LineCurveBase2D G,
        (_LineCurveBase2D_transfer_attributes source target).1 = Ok tt
        /\ line_base (_LineCurveBase2D_transfer_attributes source target).2
          = line_base target
        /\ _LineCurveBase2D_transfer_attributes target target = (Ok tt, target)
        /\ (_LineCurveBase2D_transfer_attributes source;;
            _LineCurveBase2D_transfer_attributes source) target
           = _LineCurveBase2D_transfer_attributes source target
        /\ (line_base target2 = line_base target ->
            _LineCurveBase2D_transfer_attributes source target2
              = _LineCurveBase2D_transfer_attributes source target)).
Proof.
  split; [|split].
  - intros source [base c] [base2 c2]. repeat split. cbn. by intros ->.
  - intros source [[base c] m] [[base2 c2] m2]. repeat split. cbn. by intros ->.
  - intros source [[base c] w t] [[base2 c2] w2 t2]. repeat split. cbn.
    by intros ->.
Qed.

(** X11: a wrapper rebuilt on the transformed geometry and given the
    attributes of the original by [_transfer_attributes] is the wrapper the
    transform leaves in place exactly when the two have the same
    [user_data]: the transfer copies the display attributes and not
    [user_data]. *)
Theorem transfer_onto_transformed_geometry (t : transform G) :
  (forall original rebuilt : _SingleColorModeBase2D G,
     _geometry (mode_base rebuilt)
       = expected_geometry math_radians t (_geometry (mode_base original)) ->
     (_SingleColorModeBase2D_transfer_attributes original rebuilt).2
       = (as_mode (as_color (call math_radians t)) original).2
     <-> _user_data (mode_base rebuilt) = _user_data (mode_base original))
  /\ (forall original rebuilt : _LineCurveBase2D G,
        _geometry (line_base rebuilt)
          = expected_geometry math_radians t (_geometry (line_base original)) ->
        (_LineCurveBase2D_transfer_attributes original rebuilt).2
          = (as_line (as_color (call math_radians t)) original).2
        <-> _user_data (line_base rebuilt) = _user_data (line_base original)).
Proof.
  split.
  - intros [[[g ud] c] m] [[[g2 ud2] c2] m2]. cbn. intros ->.
    rewrite run_transform_mode. cbn. split; [by intros [= ->]|by intros ->].
  - intros [[[g ud] c] w lt] [[[g2 ud2] c2] w2 lt2]. cbn. intros ->.
    rewrite run_transform_line. cbn. split; [by intros [= ->]|by intros ->].
Qed.
End TransferFrame.

(** ** Loading the extension twice *)

Section ExtensionTwice.
Context {attribute : Type}.

(** X12: the two assignments of the module overwrite whatever [to_vis_set]
    the classes had, add no other name to either class, and are idempotent:
    running them again changes nothing. *)
Theorem extension_hook_overwrites_and_is_idempotent
    (compass_to_vis_set sunpath_to_vis_set previous : attribute)
    (env : classes attribute) :
  let load := _extend_ladybug attribute compass_to_vis_set sunpath_to_vis_set in
  (load;; load) env = load env
  /\ load (set_Compass attribute "to_vis_set" previous env) = load env
  /\ load (set_Sunpath attribute "to_vis_set" previous env) = load env
  /\ dom (Compass (load env).2) = {[ "to_vis_set" ]} ∪ dom (Compass env)
  /\ dom (Sunpath (load env).2) = {[ "to_vis_set" ]} ∪ dom (Sunpath env).
Proof.
  destruct env as [compass sunpath]. cbn.
  unfold _extend_ladybug, set_Compass, set_Sunpath. run.
  rewrite !insert_insert_eq, !dom_insert_L. done.
Qed.
End ExtensionTwice.

(** ** The exceptions a caller has to expect *)

Section ExceptionKinds.
Context {G : Type} {python : Interpreter}.
Variable DISPLAY_MODES : list string.

(** X13: the [color] setter raises nothing but an [AssertionError]; the
    [line_type] and [display_mode] setters raise nothing but a [ValueError]
    or the [AttributeError] of a value without [lower]; and the constructor
    of [_SingleColorModeBase2D] raises nothing but one of these three. *)
Theorem setters_raise_only_their_exceptions (value : pyval) (e : exn) :
  (forall self : _SingleColorBase2D G,
     (_SingleColorBase2D_color value self).1 = Raise e ->
     exists m, e = AssertionError m)
  /\ (forall self : _LineCurveBase2D G,
        (_LineCurveBase2D_line_type value self).1 = Raise e ->
        (exists m, e = ValueError m) \/ e = AttributeError (py_type value) "lower")
  /\ (forall self : _SingleColorModeBase2D G,
        (_SingleColorModeBase2D_display_mode DISPLAY_MODES value self).1 = Raise e ->
        (exists m, e = ValueError m) \/ e = AttributeError (py_type value) "lower")
  /\ (forall (geometry : G) (color : pyval),
        _SingleColorModeBase2D_init DISPLAY_MODES geometry color value = Raise e ->
        (exists m, e = AssertionError m)
        \/ (exists m, e = ValueError m)
        \/ e = AttributeError (py_type value) "lower").
Proof.
  assert (forall name keys,
            (clean_input ← py_lower value;
             match first_match keys clean_input with
             | Some key => Ok key
             | None => Raise (ValueError (not_recognized name value keys))
             end) = Raise e ->
            (exists m, e = ValueError m)
            \/ e = AttributeError (py_type value) "lower") as Hcheck.
  { intros name keys. binds.
    destruct (py_lower value) as [clean_input|e'] eqn:El.
    - destruct (first_match keys clean_input); [discriminate|].
      intros [= <-]. left. eauto.
    - intros [= <-]. right. destruct value; cbn in *; congruence.
  }
  split; [|split; [|split]].
  - intros self. rewrite run_color.
    destruct value; cbn; try discriminate; intros [= <-]; eauto.
  - intros self. rewrite run_line_type.
    destruct (line_type_value value) eqn:E; [discriminate|].
    cbn. intros [= ->]. by apply (Hcheck "line_type" LINE_TYPES).
  - intros self. rewrite run_display_mode.
    destruct (display_mode_value DISPLAY_MODES value) eqn:E; [discriminate|].
    cbn. intros [= ->]. by apply (Hcheck "display_mode" DISPLAY_MODES).
  - intros geometry color.
    unfold _SingleColorModeBase2D_init, _SingleColorBase2D_init. binds.
    destruct (color_value color) eqn:Ec.
    + destruct (display_mode_value DISPLAY_MODES value) eqn:E; [discriminate|].
      intros [= ->]. right. by apply (Hcheck "display_mode" DISPLAY_MODES).
    + intros [= ->]. left.
      destruct color; cbn in Ec; try discriminate; injection Ec as <-; eauto.
Qed.
End ExceptionKinds.

(** ** The further properties at concrete wrappers *)

Section AtConcreteWrappers.
#[local] Existing Instance reading_digits.

Lemma a_move_and_a_line_type_commute :
  let t := Move (mkPoint3D 1 0 0) in
  (as_line (as_color (call degrees_to_radians t));;
   _LineCurveBase2D_line_type (VStr "dotted")) traced_line
  = (_LineCurveBase2D_line_type (VStr "dotted");;
     as_line (as_color (call degrees_to_radians t))) traced_line.
Proof.
  intros t.
  apply (proj1 (proj2 (proj2 (proj2
           (successful_setters_commute named_modes degrees_to_radians
              (VColor blue) (VInt 2) (VStr "dotted") (VStr "Wireframe") t))))
           traced_line).
  reflexivity.
Defined.

Lemma dotted_after_dashed_is_dotted :
  (_LineCurveBase2D_line_type (VStr "Dashed");;
   _LineCurveBase2D_line_type (VStr "Dotted")) display_square
  = _LineCurveBase2D_line_type (VStr "Dotted") display_square.
Proof.
  apply (proj2 (proj2 (proj2 (last_write_wins named_modes (VStr "Dashed")
                                 (VStr "Dotted"))))
           display_square eq_refl).
  reflexivity.
Defined.

Lemma writing_back_the_dashed_line_type :
  _LineCurveBase2D_line_type (VStr (_line_type dashed_square)) dashed_square
  = (Ok tt, dashed_square).
Proof.
  apply (proj2 (proj2 (writing_back_changes_nothing named_modes (VStr "DASHED")))
           (set_line_width (LineWidth 2) display_square) dashed_square).
  reflexivity.
Defined.

Lemma wireframe_is_the_third_mode :
  _SingleColorModeBase2D_display_mode named_modes (VStr "wireFRAME") display_cylinder
  = (Ok tt, set_display_mode "Wireframe" display_cylinder)
  /\ _display_mode
       (_SingleColorModeBase2D_display_mode named_modes (VStr "wireFRAME")
          display_cylinder).2
     = "Wireframe"
  /\ _display_mode
       (_SingleColorModeBase2D_display_mode ["surface"; "Surface"] (VStr "SURFACE")
          display_cylinder).2
     = "surface".
Proof.
  destruct (display_mode_stores_first_member named_modes "wireFRAME"
              display_cylinder (set_display_mode "Wireframe" display_cylinder)
              eq_refl eq_refl) as (Hiff & Hread & _).
  destruct (display_mode_stores_first_member ["surface"; "Surface"] "SURFACE"
              display_cylinder display_cylinder eq_refl eq_refl)
    as (_ & Hfirst & _).
  assert (forall k, In k ["Surface"; "SurfaceWithEdges"] ->
                    lower k <> lower "wireFRAME") as Hbefore.
  { intros k [<-|[<-|[]]]; discriminate. }
  split; [|split].
  - apply (proj2 Hiff).
    exists ["Surface"; "SurfaceWithEdges"], "Wireframe", [].
    repeat split. exact Hbefore.
  - apply (Hread ["Surface"; "SurfaceWithEdges"] "Wireframe" []);
      [reflexivity|reflexivity|exact Hbefore].
  - apply (Hfirst [] "surface" ["Surface"]); [reflexivity|reflexivity|].
    intros k [].
Defined.

Lemma the_traced_line_stays_listed :
  line_type_listed (_LineCurveBase2D_line_type (VStr "ZigZag") traced_line).2
  /\ line_type_listed (_LineCurveBase2D_line_type (VStr "dotted") traced_line).2
  /\ line_type_listed
       (as_line (as_color (call degrees_to_radians (Rotate 90 (mkPoint3D 0 0 0))))
          traced_line).2.
Proof.
  assert (line_type_listed traced_line) as Hlisted by (cbn; tauto).
  split; [|split].
  - exact (proj1 (proj2 (proj2 (proj1 (proj2 (proj2
             (enumerated_attributes_stay_listed degrees_to_radians named_modes
                (VStr "ZigZag") (Rotate 90 (mkPoint3D 0 0 0)))))
             traced_line traced_line Hlisted)))).
  - exact (proj1 (proj2 (proj2 (proj1 (proj2 (proj2
             (enumerated_attributes_stay_listed degrees_to_radians named_modes
                (VStr "dotted") (Rotate 90 (mkPoint3D 0 0 0)))))
             traced_line traced_line Hlisted)))).
  - exact (proj1 (proj2 (proj2 (proj2 (proj1 (proj2 (proj2
             (enumerated_attributes_stay_listed degrees_to_radians named_modes
                (VStr "dotted") (Rotate 90 (mkPoint3D 0 0 0)))))
             traced_line traced_line Hlisted))))).
Defined.

Lemma transfer_ignores_the_old_attributes :
  _LineCurveBase2D_transfer_attributes
    (set_line_type "Dotted" traced_line) (set_line_width (LineWidth 3) traced_line)
  = _LineCurveBase2D_transfer_attributes (set_line_type "Dotted" traced_line)
      traced_line.
Proof.
  destruct (transfer_leaves_geometry_and_user_data (G:=list recorded))
    as (_ & _ & Hline).
  destruct (Hline (set_line_type "Dotted" traced_line) traced_line
              (set_line_width (LineWidth 3) traced_line))
    as (_ & _ & _ & _ & Hsame).
  apply Hsame. reflexivity.
Defined.

Lemma transfer_after_a_move :
  let t := Move (mkPoint3D 1 0 0) in
  let rebuilt :=
    {| line_super :=
         {| color_super := {| _geometry := [Moved (mkPoint3D 1 0 0)];
                              _user_data := ∅ |};
            _color := Color_new 0 0 0 |};
       _line_width := LineWidthDefault;
       _line_type := "Continuous" |} in
  (_LineCurveBase2D_transfer_attributes (set_line_type "Dotted" traced_line)
     rebuilt).2
  = (as_line (as_color (call degrees_to_radians t))
       (set_line_type "Dotted" traced_line)).2.
Proof.
  intros t rebuilt.
  apply (proj2 (proj2 (transfer_onto_transformed_geometry degrees_to_radians t)
                  (set_line_type "Dotted" traced_line) rebuilt eq_refl)).
  reflexivity.
Defined.

Lemma a_number_is_no_line_type :
  (exists m, AttributeError Tint "lower" = ValueError m)
  \/ AttributeError Tint "lower" = AttributeError (py_type (VInt 3)) "lower".
Proof.
  apply (proj1 (proj2 (setters_raise_only_their_exceptions named_modes (VInt 3)
                         (AttributeError Tint "lower")))
           display_square).
  reflexivity.
Defined.
End AtConcreteWrappers.
